(** * PriceMachine: a shallow embedding of [project.py]

    The development follows the Python source method by method:
    [_search_product_price_weight], the row loop of [load_prices],
    the sort key shared by [load_prices], [export_to_html] and
    [find_text], the table rows of [export_to_html] and [find_text].

    Python values are modelled as follows.
    - [str] is a list of Unicode code points ([pystr]).
    - [float] is Rocq's primitive binary64 float.
    - [None] in an optional position is [None : option _].
    - A raised exception is [Raise e] in the [result] monad.
    - The dictionaries produced by [csv.DictReader] are association
      lists written through [Dict.setitem] (a later write to a key that
      is already present replaces its value, as in Python).

    Two builtins are not repository code and are the fields of the
    class [PyBuiltin]: [str.lower] and [float] on a string.  The
    program and its properties are stated for every instance;
    [PyBuiltins] gives the instance used on the sample price lists.

    Files are given as what [os.walk] and [csv.reader] yield for them;
    the prompt loop at the end of the script is outside the model. *)

From Stdlib Require Import List Bool Arith NArith ZArith Lia.
From Stdlib Require Import String Ascii.
From Stdlib Require Import Floats.
From Stdlib Require Import Sorted Permutation.
From Stdlib Require Import DecimalPos.
Import ListNotations.

(* ================================================================== *)
(** * Python strings *)

(** A Python [str]: the sequence of its code points. *)
Definition pystr := list N.

Module PyStr.

(** Decoding of the UTF-8 bytes of a Rocq string literal, so that the
    literals of the source can be written as they are. *)
Fixpoint utf8_decode (bs : list N) : pystr :=
  match bs with
  | [] => []
  | b0 :: r0 =>
    if (b0 <? 128)%N then b0 :: utf8_decode r0
    else
      match r0 with
      | [] => [b0]
      | b1 :: r1 =>
        if (b0 <? 224)%N then
          ((b0 mod 32) * 64 + b1 mod 64)%N :: utf8_decode r1
        else
          match r1 with
          | [] => [b0; b1]
          | b2 :: r2 =>
            if (b0 <? 240)%N then
              ((b0 mod 16) * 4096 + (b1 mod 64) * 64 + b2 mod 64)%N
                :: utf8_decode r2
            else
              match r2 with
              | [] => [b0; b1; b2]
              | b3 :: r3 =>
                ((b0 mod 8) * 262144 + (b1 mod 64) * 4096
                 + (b2 mod 64) * 64 + b3 mod 64)%N :: utf8_decode r3
              end
          end
      end
  end.

Definition of_string (s : string) : pystr :=
  utf8_decode (map N_of_ascii (list_ascii_of_string s)).

Fixpoint eqb (a b : pystr) : bool :=
  match a, b with
  | [], [] => true
  | x :: a', y :: b' => (x =? y)%N && eqb a' b'
  | _, _ => false
  end.

(** [s.startswith(p)] *)
Fixpoint startswith (p s : pystr) : bool :=
  match p, s with
  | [], _ => true
  | _ :: _, [] => false
  | x :: p', y :: s' => (x =? y)%N && startswith p' s'
  end.

(** [s.endswith(p)] *)
Definition endswith (p s : pystr) : bool :=
  startswith (rev p) (rev s).

(** [sub in s]: [sub] occurs in [s] as a contiguous substring. *)
Fixpoint contains (sub s : pystr) : bool :=
  startswith sub s ||
  match s with
  | [] => false
  | _ :: s' => contains sub s'
  end.

(** Truth value of a string: non-empty. *)
Definition truthy (s : pystr) : bool :=
  match s with [] => false | _ :: _ => true end.

(** A decimal digit. *)
Definition is_digit (c : N) : bool := ((48 <=? c) && (c <=? 57))%N.

End PyStr.

Abbreviation py := PyStr.of_string.

(** [str(x)] for a value that is a string or [None]. *)
Definition str_of_cell (c : option pystr) : pystr :=
  match c with
  | Some s => s
  | None => py "None"
  end.

(* ================================================================== *)
(** * Exceptions *)

Inductive exn : Set :=
| ValueError
| TypeError
| ZeroDivisionError
| AttributeError
| IndexError
| KeyError.

Inductive result (A : Type) : Type :=
| Ok (a : A)
| Raise (e : exn).

Arguments Ok {A} a.
Arguments Raise {A} e.

Definition bind {A B : Type} (m : result A) (k : A -> result B) : result B :=
  match m with
  | Ok a => k a
  | Raise e => Raise e
  end.

Notation "x <- m ;; k" := (bind m (fun x => k))
  (at level 61, m at next level, right associativity).

(** [l[i]] on a list *)
Definition list_getitem {A : Type} (l : list A) (i : nat) : result A :=
  match nth_error l i with
  | Some a => Ok a
  | None => Raise IndexError
  end.

(** [enumerate(l, start)] *)
Definition enumerate {A : Type} (start : nat) (l : list A) : list (nat * A) :=
  combine (seq start (List.length l)) l.

(* ================================================================== *)
(** * Dictionaries keyed by strings *)

Module Dict.

Definition t (V : Type) := list (pystr * V).

(** [d[k] = v] *)
Fixpoint setitem {V : Type} (k : pystr) (v : V) (d : t V) : t V :=
  match d with
  | [] => [(k, v)]
  | (k', v') :: d' =>
    if PyStr.eqb k k' then (k', v) :: d' else (k', v') :: setitem k v d'
  end.

Fixpoint get {V : Type} (k : pystr) (d : t V) : option V :=
  match d with
  | [] => None
  | (k', v') :: d' => if PyStr.eqb k k' then Some v' else get k d'
  end.

(** [d[k]] *)
Definition getitem {V : Type} (k : pystr) (d : t V) : result V :=
  match get k d with
  | Some v => Ok v
  | None => Raise KeyError
  end.

End Dict.

(* ================================================================== *)
(** * Floats *)

(** Truth value of a float: [x != 0.0], so [nan] is true. *)
Definition float_truthy (x : float) : bool := negb (x =? 0)%float.

(** [a / b] on floats. *)
Definition float_truediv (a b : float) : result float :=
  if (b =? 0)%float then Raise ZeroDivisionError else Ok (a / b)%float.

(** ** The format [.2f] *)

Fixpoint uint_codes (d : Decimal.uint) : pystr :=
  match d with
  | Decimal.Nil => []
  | Decimal.D0 d' => 48%N :: uint_codes d'
  | Decimal.D1 d' => 49%N :: uint_codes d'
  | Decimal.D2 d' => 50%N :: uint_codes d'
  | Decimal.D3 d' => 51%N :: uint_codes d'
  | Decimal.D4 d' => 52%N :: uint_codes d'
  | Decimal.D5 d' => 53%N :: uint_codes d'
  | Decimal.D6 d' => 54%N :: uint_codes d'
  | Decimal.D7 d' => 55%N :: uint_codes d'
  | Decimal.D8 d' => 56%N :: uint_codes d'
  | Decimal.D9 d' => 57%N :: uint_codes d'
  end.

(** [str(n)] for a natural number. *)
Definition str_of_N (n : N) : pystr := uint_codes (N.to_uint n).

(** [n / d] rounded to the nearest integer, ties to even. *)
Definition div_half_even (n d : Z) : Z :=
  let q := (n / d)%Z in
  let r := (n mod d)%Z in
  match (2 * r ?= d)%Z with
  | Lt => q
  | Gt => (q + 1)%Z
  | Eq => if Z.even q then q else (q + 1)%Z
  end.

(** The number of hundredths nearest to [m * 2^e]. *)
Definition hundredths (m : positive) (e : Z) : Z :=
  match e with
  | Zneg p => div_half_even (Zpos m * 100) (2 ^ Zpos p)
  | _ => (Zpos m * 100 * 2 ^ e)%Z
  end.

(** Sign, integer part, point and two digits. *)
Definition fixed2 (sign : bool) (h : Z) : pystr :=
  (if sign then py "-" else []) ++
  str_of_N (Z.to_N (h / 100)) ++ py "." ++
  [(48 + Z.to_N ((h / 10) mod 10))%N; (48 + Z.to_N (h mod 10))%N].

(** [f"{x:.2f}"]: the decimal with two fractional digits nearest to the
    exact value of [x] (ties to even); [inf] and [nan] are spelled out. *)
Definition format_2f (x : float) : pystr :=
  match Prim2SF x with
  | S754_nan => py "nan"
  | S754_infinity s => if s then py "-inf" else py "inf"
  | S754_zero s => fixed2 s 0
  | S754_finite s m e => fixed2 s (hundredths m e)
  end.

(** A numeral with exactly two decimal places: an optional minus sign,
    at least one digit, a point and two digits. *)
Definition two_decimals (s : pystr) : bool :=
  let body :=
    match s with
    | c :: r => if (c =? 45)%N then r else s
    | [] => s
    end in
  match rev body with
  | d2 :: d1 :: 46%N :: ip =>
    PyStr.is_digit d2 && PyStr.is_digit d1 &&
    forallb PyStr.is_digit ip && PyStr.truthy ip
  | _ => false
  end.

(* ================================================================== *)
(** * Instances of the builtins *)

Module PyBuiltins.

(** [str.lower] on one code point, for the capital letters of ASCII,
    Latin-1 and the Cyrillic block; every other code point is left as
    it is. *)
Definition lower_cp (c : N) : N :=
  if ((65 <=? c) && (c <=? 90))%N then (c + 32)%N
  else if ((192 <=? c) && (c <=? 222) && negb (c =? 215))%N then (c + 32)%N
  else if ((1040 <=? c) && (c <=? 1071))%N then (c + 32)%N
  else if ((1024 <=? c) && (c <=? 1039))%N then (c + 80)%N
  else c.

Definition lower (s : pystr) : pystr := map lower_cp s.

Definition is_space (c : N) : bool :=
  ((9 <=? c) && (c <=? 13) || (c =? 32))%N.

Fixpoint lstrip (s : pystr) : pystr :=
  match s with
  | c :: s' => if is_space c then lstrip s' else s
  | [] => []
  end.

Definition strip (s : pystr) : pystr := rev (lstrip (rev (lstrip s))).

(** Reads decimal digits: the number read so far, how many digits
    were read, and what is left. *)
Fixpoint read_digits (s : pystr) (acc : N) (count : nat) : N * nat * pystr :=
  match s with
  | c :: s' =>
    if PyStr.is_digit c then read_digits s' (acc * 10 + (c - 48))%N (S count)
    else (acc, count, s)
  | [] => (acc, count, [])
  end.

(** The binary64 number nearest to [(-1)^sign * m / 10^k]. *)
Definition nearest_float (sign : bool) (m : N) (k : nat) : float :=
  match m with
  | N0 => SF2Prim (S754_zero sign)
  | Npos pm =>
    match k with
    | O => SF2Prim (binary_normalize prec emax
                      (if sign then Zneg pm else Zpos pm) 0 sign)
    | S _ =>
      SF2Prim (SFdiv prec emax (S754_finite sign pm 0)
                     (S754_finite false (Pos.pow 10 (Pos.of_nat k)) 0))
    end
  end.

(** [float(s)] for the numerals [[sign] digits [. digits]], [inf],
    [infinity] and [nan], with blanks around them.  Exponents and
    digit separators are outside this instance, which answers [None]
    for them. *)
Definition float_of_decimal (s : pystr) : option float :=
  let s := strip s in
  let '(sign, body) :=
    match s with
    | 45%N :: s' => (true, s')
    | 43%N :: s' => (false, s')
    | _ => (false, s)
    end in
  let word := lower body in
  if PyStr.eqb word (py "inf") || PyStr.eqb word (py "infinity") then
    Some (if sign then neg_infinity else infinity)
  else if PyStr.eqb word (py "nan") then Some nan
  else
    let '(m1, n1, rest1) := read_digits body 0%N O in
    let '(m, n2, rest2) :=
      match rest1 with
      | 46%N :: frac => read_digits frac m1 O
      | _ => (m1, O, rest1)
      end in
    match rest2, (n1 + n2)%nat with
    | [], S _ => Some (nearest_float sign m n2)
    | _, _ => None
    end.

End PyBuiltins.

(* ================================================================== *)
(** * Paths *)

Module Path.

Definition sep : N := 47%N.

(** [os.path.join(a, b)] on POSIX. *)
Definition join (a b : pystr) : pystr :=
  if PyStr.startswith [sep] b then b
  else if negb (PyStr.truthy a) || PyStr.endswith [sep] a then a ++ b
  else a ++ sep :: b.

(** [os.path.basename(p)] on POSIX: what follows the last separator. *)
Fixpoint basename (p : pystr) : pystr :=
  match p with
  | [] => []
  | c :: p' =>
    if existsb (N.eqb sep) p' then basename p'
    else if (c =? sep)%N then p'
    else p
  end.

End Path.

(* ================================================================== *)
(** * Data *)

(** An element of [self.data]: the dictionary of lines 79-85. *)
Record item : Type := mk_item {
  product : option pystr;
  price : option pystr;
  weight : option float;
  file : pystr;
  price_per_kg : option float
}.

(** What [csv.reader] yields for a file: the first row, if there is one
    ([reader.fieldnames]), and the rows after it. *)
Record csv_file : Type := mk_csv {
  csv_fieldnames : option (list pystr);
  csv_rows : list (list pystr)
}.

(** An entry of [os.walk]: directory, file name and content. *)
Record dir_file : Type := mk_file {
  f_root : pystr;
  f_name : pystr;
  f_csv : csv_file
}.

(** The six cells of a table row of [export_to_html]; the weight cell
    is kept as the value that the template passes to [str]. *)
Record html_row : Type := mk_row {
  td_idx : nat;
  td_product : pystr;
  td_price : pystr;
  td_weight : option float;
  td_file : pystr;
  td_price_per_kg : pystr
}.

(** [sorted(l, key=key)]: a stable sort that compares keys with [<]
    only.  It is written as an insertion sort.  When no key is [nan]
    the keys are ordered by [<], and the stable sort of a list is then
    one list whatever the algorithm ([sorted_unique] below); with a
    [nan] key the result of Python's sort depends on its merge
    strategy, which is outside the model. *)
Section Sorted.
Variable A : Type.
Variable key : A -> float.

Fixpoint insert_sorted (x : A) (l : list A) : list A :=
  match l with
  | [] => [x]
  | y :: l' =>
    if (key y <? key x)%float then y :: insert_sorted x l' else x :: l
  end.

Fixpoint sorted (l : list A) : list A :=
  match l with
  | [] => []
  | x :: l' => insert_sorted x (sorted l')
  end.

(** [a] is not after [b]: the key of [b] is not below the key of [a]. *)
Definition key_le (a b : A) : Prop := (key b <? key a)%float = false.

(** No key is [nan]. *)
Definition keys_ordered (l : list A) : Prop :=
  Forall (fun x => is_nan (key x) = false) l.

(** [a] stands before [b] in [l]. *)
Definition before (a b : A) (l : list A) : Prop :=
  exists l1 l2 l3, l = l1 ++ a :: l2 ++ b :: l3.

End Sorted.

Arguments insert_sorted {A} key x l.
Arguments sorted {A} key l.
Arguments key_le {A} key a b.
Arguments keys_ordered {A} key l.
Arguments before {A} a b l.

(* ================================================================== *)
(** * Sample price lists *)

Module Samples.

Local Open Scope string_scope.

Definition file (name : string) (headers : list string)
    (rows : list (list string)) : dir_file :=
  {| f_root := py "prices";
     f_name := py name;
     f_csv := {| csv_fieldnames := Some (map PyStr.of_string headers);
                 csv_rows := map (map PyStr.of_string) rows |} |}.

(** The price list of scenario 6 of the specification. *)
Definition price1 : dir_file :=
  file "price1.csv" ["Наименование"; "Розница"; "Вес"]
       [["Яблоко"; "100"; "2"]; ["Груша"; "150"; ""]].

(** Two headers carry a keyword of the product role. *)
Definition two_product_headers : list pystr :=
  [py "Товар"; py "Цена"; py "Вес"; py "Название"].

(** The second row has a price that is not a number. *)
Definition bad_price : dir_file :=
  file "price_bad.csv" ["Товар"; "Цена"; "Вес"]
       [["Сахар"; "50"; "1"]; ["Чай"; "abc"; "2"]; ["Кофе"; "100"; "1"]].

(** A row without weight, then a row with the price 0. *)
Definition zero_price : dir_file :=
  file "price_zero.csv" ["Товар"; "Цена"; "Вес"]
       [["Пакет"; "5"; ""]; ["Пробник"; "0"; "2"]; ["Яблоко"; "100"; "2"]].

(** A row whose weight is 0. *)
Definition zero_weight : dir_file :=
  file "price_weight.csv" ["Товар"; "Цена"; "Вес"] [["Соль"; "30"; "0"]].

(** A row with an empty product and a row with an empty price. *)
Definition empty_cells : dir_file :=
  file "price_empty.csv" ["Товар"; "Цена"; "Вес"]
       [[""; "100"; "2"]; ["Мёд"; ""; ""]].

(** The header line occurs again among the rows. *)
Definition header_as_data : dir_file :=
  file "price_header.csv" ["Наименование"; "Цена"; "Вес"]
       [["Наименование"; "Цена"; "Вес"]; ["Груша"; "150"; "3"]].

(** The product is the last column and the row stops before it. *)
Definition short_row : dir_file :=
  file "price_short.csv" ["Цена"; "Вес"; "Товар"] [["100"; "2"]].

(** No header carries a keyword of the product or the price role. *)
Definition no_roles : dir_file :=
  file "price_codes.csv" ["Код"; "Количество"] [["1"; "2"]].

End Samples.

(* ================================================================== *)
(** * The program *)

(** The two builtins that the program calls on strings. *)
Class PyBuiltin : Type := {
  (** [s.lower()] *)
  str_lower : pystr -> pystr;
  (** [float(s)] on a string; [None] stands for [ValueError]. *)
  float_of_str : pystr -> option float
}.

Section PriceMachine.
Context {builtin : PyBuiltin}.

(** ** [_search_product_price_weight] *)

Definition product_keywords : list pystr :=
  [py "товар"; py "название"; py "наименование"; py "продукт"].
Definition price_keywords : list pystr :=
  [py "розница"; py "цена"].
Definition weight_keywords : list pystr :=
  [py "вес"; py "масса"; py "фасовка"].

(** [any(keyword in header_lower for keyword in keywords)] *)
Definition any_keyword_in (keywords : list pystr) (header_lower : pystr) : bool :=
  existsb (fun keyword => PyStr.contains keyword header_lower) keywords.

(** One iteration of the loop over [enumerate(headers)]. *)
Definition search_step (acc : option nat * option nat * option nat)
    (ih : nat * pystr) : option nat * option nat * option nat :=
  let '(product_idx, price_idx, weight_idx) := acc in
  let '(i, header) := ih in
  let header_lower := str_lower header in
  let product_idx :=
    if any_keyword_in product_keywords header_lower then Some i else product_idx in
  let price_idx :=
    if any_keyword_in price_keywords header_lower then Some i else price_idx in
  let weight_idx :=
    if any_keyword_in weight_keywords header_lower then Some i else weight_idx in
  (product_idx, price_idx, weight_idx).

Definition _search_product_price_weight (headers : list pystr)
  : option nat * option nat * option nat :=
  fold_left search_step (enumerate 0 headers) (None, None, None).

(** ** The rows of [csv.DictReader] *)

(** A row of the reader: [dict(zip(fieldnames, row))], then [None]
    under every field name the row is too short for.  (When the row is
    longer than the header the reader stores the surplus under the key
    [None], which no lookup of this program uses.) *)
Definition dict_reader_row (fieldnames row : list pystr) : Dict.t (option pystr) :=
  let d :=
    fold_left (fun d kv => Dict.setitem (fst kv) (Some (snd kv)) d)
              (combine fieldnames row) [] in
  fold_left (fun d key => Dict.setitem key None d)
            (skipn (List.length row) fieldnames) d.

(** ** The body of the row loop of [load_prices] *)

(** [float(x)] where [x] is a string or [None]. *)
Definition py_float (x : option pystr) : result float :=
  match x with
  | None => Raise TypeError
  | Some s =>
    match float_of_str s with
    | Some v => Ok v
    | None => Raise ValueError
    end
  end.

(** Lines 66-71: the weight in kilograms. *)
Definition parse_weight (weight : option pystr) : option float :=
  match weight with
  | Some s => if PyStr.truthy s then float_of_str s else None
  | None => None
  end.

(** Lines 74-76: the price per kilogram. *)
Definition compute_price_per_kg (price : option pystr) (weight_kg : option float)
  : result (option float) :=
  match weight_kg with
  | Some w =>
    if float_truthy w then
      if (0 <? w)%float then
        p <- py_float price ;;
        q <- float_truediv p w ;;
        Ok (Some q)
      else Ok None
    else Ok None
  | None => Ok None
  end.

(** Lines 61-85: the record made from one row. *)
Definition process_row (headers : list pystr)
    (product_idx price_idx : nat) (weight_idx : option nat)
    (file_path : pystr) (row : Dict.t (option pystr)) : result item :=
  product_header <- list_getitem headers product_idx ;;
  product <- Dict.getitem product_header row ;;
  price_header <- list_getitem headers price_idx ;;
  price <- Dict.getitem price_header row ;;
  weight <-
    match weight_idx with
    | Some wi =>
      weight_header <- list_getitem headers wi ;;
      Dict.getitem weight_header row
    | None => Ok None
    end ;;
  let weight_kg := parse_weight weight in
  price_per_kg <- compute_price_per_kg price weight_kg ;;
  Ok {| product := product;
        price := price;
        weight := weight_kg;
        file := Path.basename file_path;
        price_per_kg := price_per_kg |}.

(** The loop [for row in reader]: records are appended to [data] one by
    one; the first exception leaves the loop with what was appended so
    far.  The reader skips rows without any field. *)
Fixpoint load_rows (headers : list pystr)
    (product_idx price_idx : nat) (weight_idx : option nat)
    (file_path : pystr) (rows : list (list pystr)) (data : list item)
  : list item * option exn :=
  match rows with
  | [] => (data, None)
  | [] :: rows' =>
    load_rows headers product_idx price_idx weight_idx file_path rows' data
  | row :: rows' =>
    match process_row headers product_idx price_idx weight_idx file_path
                      (dict_reader_row headers row) with
    | Ok it =>
      load_rows headers product_idx price_idx weight_idx file_path rows'
                (data ++ [it])
    | Raise e => (data, Some e)
    end
  end.

(** Lines 50-89: the body of the loop over [valid_files] for one file,
    with its [try]: the new [data] and the exception caught, if any. *)
Definition load_file (data : list item) (f : dir_file) : list item * option exn :=
  let file_path := Path.join (f_root f) (f_name f) in
  if PyStr.endswith (py ".csv") file_path then
    match csv_fieldnames (f_csv f) with
    | None => (data, Some TypeError)
    | Some headers =>
      match _search_product_price_weight headers with
      | (Some product_idx, Some price_idx, weight_idx) =>
        load_rows headers product_idx price_idx weight_idx file_path
                  (csv_rows (f_csv f)) data
      | _ => (data, None)
      end
    end
  else (data, None).

(** The lines printed by the [except] clause: path and exception. *)
Definition log := list (pystr * exn).

Fixpoint load_files (data : list item) (out : log) (files : list dir_file)
  : list item * log :=
  match files with
  | [] => (data, out)
  | f :: files' =>
    match load_file data f with
    | (data', None) => load_files data' out files'
    | (data', Some e) =>
      load_files data' (out ++ [(Path.join (f_root f) (f_name f), e)]) files'
    end
  end.

(** Lines 42-46: the files whose name contains "price". *)
Definition valid_files (walk : list dir_file) : list dir_file :=
  filter (fun f => PyStr.contains (py "price") (str_lower (f_name f))) walk.

(** ** Sorting *)

(** The [key] of the three calls of [sorted]. *)
Definition sort_key (x : item) : float :=
  match price_per_kg x with
  | Some v => if float_truthy v then v else infinity
  | None => infinity
  end.

(** [load_prices]: [self.data] before the call and the directory walk
    in; [self.data] after the call and the printed errors out. *)
Definition load_prices (data : list item) (walk : list dir_file)
  : list item * log :=
  let '(data', out) := load_files data [] (valid_files walk) in
  (sorted sort_key data', out).

(** ** [find_text] *)

(** The condition of the list comprehension, with the short cut of
    [and]: [.lower()] on a product that is [None] raises. *)
Definition find_cond (text : pystr) (x : item) : result bool :=
  if PyStr.contains (str_lower text) (str_lower (str_of_cell (product x))) then
    match product x with
    | Some p => Ok (negb (PyStr.contains (py "наименование") (str_lower p)))
    | None => Raise AttributeError
    end
  else Ok false.

Fixpoint find_results (text : pystr) (data : list item) : result (list item) :=
  match data with
  | [] => Ok []
  | x :: data' =>
    keep <- find_cond text x ;;
    results <- find_results text data' ;;
    Ok (if keep then x :: results else results)
  end.

Definition find_text (data : list item) (text : pystr) : result (list item) :=
  results <- find_results text data ;;
  Ok (sorted sort_key results).

(** ** [export_to_html] *)

(** Line 151. *)
Definition price_per_kg_formatted (x : item) : pystr :=
  match price_per_kg x with
  | Some v => if float_truthy v then format_2f v else py "N/A"
  | None => py "N/A"
  end.

(** The cells of one table row, lines 152-161. *)
Definition table_row (idx_item : nat * item) : html_row :=
  let '(idx, x) := idx_item in
  {| td_idx := idx;
     td_product := str_of_cell (product x);
     td_price := str_of_cell (price x);
     td_weight := weight x;
     td_file := file x;
     td_price_per_kg := price_per_kg_formatted x |}.

(** The rows of the table written by [export_to_html]. *)
Definition export_rows (data : list item) : list html_row :=
  let sorted_data := sorted sort_key data in
  map table_row (enumerate 1 sorted_data).

(** ** Vocabulary of the properties *)

(** [header] carries one of [keywords]. *)
Definition header_matches (keywords : list pystr) (header : pystr) : bool :=
  any_keyword_in keywords (str_lower header).

(** The sorted view of the catalog: the expression that [load_prices],
    [export_to_html] and [find_text] all evaluate. *)
Definition sorted_view (data : list item) : list item := sorted sort_key data.

(** The price per kilogram is [None] or is zero: the cases in which the
    conditional expressions of the program take their [else] branch. *)
Definition absent_or_zero (x : item) : bool :=
  match price_per_kg x with
  | Some v => negb (float_truthy v)
  | None => true
  end.

(** The records that [find_text] keeps: the lower-cased product
    contains the lower-cased text and does not contain the keyword. *)
Definition find_keeps (text : pystr) (x : item) : bool :=
  PyStr.contains (str_lower text) (str_lower (str_of_cell (product x))) &&
  negb (PyStr.contains (py "наименование") (str_lower (str_of_cell (product x)))).

(** The product is a string. *)
Definition has_product (x : item) : bool :=
  match product x with Some _ => true | None => false end.

(** [find] in the words of the specification: the query is matched
    without regard to case, the keyword is looked for in the product
    as it is written. *)
Definition find_as_specified (text : pystr) (data : list item) : list item :=
  filter (fun x =>
            PyStr.contains (str_lower text) (str_lower (str_of_cell (product x))) &&
            negb (PyStr.contains (py "наименование") (str_of_cell (product x))))
         (sorted_view data).

(** No price per kilogram of the catalog is zero. *)
Definition prices_nonzero (data : list item) : Prop :=
  Forall (fun x => forall v, price_per_kg x = Some v -> float_truthy v = true) data.

(** [row[headers[i]]] for a row of the reader: the cell under the
    [i]-th header, [None] when the row is too short for it. *)
Definition reader_cell (headers row : list pystr) (i : nat) : option pystr :=
  match nth_error headers i with
  | Some header =>
    match Dict.get header (dict_reader_row headers row) with
    | Some cell => cell
    | None => None
    end
  | None => None
  end.

(** The value of [weight] at line 63. *)
Definition reader_weight (headers row : list pystr) (weight_idx : option nat)
  : option pystr :=
  match weight_idx with
  | Some wi => reader_cell headers row wi
  | None => None
  end.

(** The rows that the reader does not skip. *)
Definition nonblank (rows : list (list pystr)) : list (list pystr) :=
  filter (fun row => match row with [] => false | _ :: _ => true end) rows.

(** [idx] is the first column whose header carries a keyword, and is
    [None] when there is no such column. *)
Definition first_match (keywords : list pystr) (headers : list pystr)
    (idx : option nat) : Prop :=
  match idx with
  | Some i =>
    (exists h, nth_error headers i = Some h /\ header_matches keywords h = true) /\
    forall j h, j < i -> nth_error headers j = Some h ->
                header_matches keywords h = false
  | None =>
    forall j h, nth_error headers j = Some h -> header_matches keywords h = false
  end.

(** [idx] is the last column whose header carries a keyword, and is
    [None] when there is no such column. *)
Definition last_match (keywords : list pystr) (headers : list pystr)
    (idx : option nat) : Prop :=
  match idx with
  | Some i =>
    (exists h, nth_error headers i = Some h /\ header_matches keywords h = true) /\
    forall j h, i < j -> nth_error headers j = Some h ->
                header_matches keywords h = false
  | None =>
    forall j h, nth_error headers j = Some h -> header_matches keywords h = false
  end.

(** The index kept for one role: the last write of the loop. *)
Definition last_index (keywords : list pystr) (start : nat)
    (headers : list pystr) (init : option nat) : option nat :=
  fold_left (fun acc ih =>
               if header_matches keywords (snd ih) then Some (fst ih) else acc)
            (enumerate start headers) init.

End PriceMachine.

(* ================================================================== *)
(** * The program with the instances of the builtins *)

#[export] Instance decimal_builtin : PyBuiltin := {|
  str_lower := PyBuiltins.lower;
  float_of_str := PyBuiltins.float_of_decimal
|}.

(** [load_prices] on a fresh [PriceMachine]. *)
Definition ingest (walk : list dir_file) : list item * log :=
  load_prices [] walk.

Definition catalog (walk : list dir_file) : list item := fst (ingest walk).


(** The records of the samples. *)
Definition record (name : string) (product price : string)
    (weight price_per_kg : option float) : item :=
  {| product := Some (py product);
     price := Some (py price);
     weight := weight;
     file := py name;
     price_per_kg := price_per_kg |}.

(* ================================================================== *)
(** * The HTML document and the script *)

(** Two more builtins, used where the program writes text: [s.strip()]
    and [str(x)] on a float (which is also what [format(x, '<10')]
    pads). *)
Class PyText : Type := {
  str_strip : pystr -> pystr;
  str_of_float : float -> pystr
}.

(** The lines of a text, joined by line feeds. *)
Fixpoint join_lines (ls : list pystr) : pystr :=
  match ls with
  | [] => []
  | [l] => l
  | l :: ls' => l ++ 10%N :: join_lines ls'
  end.

(** [format(s, '<width')] on a string: spaces are added on the right
    up to [width] code points. *)
Definition ljust (width : nat) (s : pystr) : pystr :=
  s ++ repeat 32%N (width - List.length s).

(** How a run of the script ends: the loop is left by [exit], an
    exception is not caught, or [input] finds no more line. *)
Inductive stop : Set :=
| Exit
| Uncaught (e : exn)
| EndOfInput.

Section Script.
Context {builtin : PyBuiltin} {text : PyText}.

(** ** The document of [export_to_html] *)

Definition dq : pystr := [34%N].

(** Lines 129-145. *)
Definition html_head : pystr :=
  join_lines
    [ [];
      py "        <!DOCTYPE html>";
      py "        <html>";
      py "        <head>";
      py "            <title>Позиции продуктов</title>";
      py "        </head>";
      py "        <body>";
      py "            <table border=" ++ dq ++ py "1" ++ dq ++ py " style=" ++ dq
        ++ py "width:100%; text-align:left; border-collapse: collapse;" ++ dq
        ++ py ">";
      py "                <tr>";
      py "                    <th>Номер</th>";
      py "                    <th>Наименование</th>";
      py "                    <th>Цена</th>";
      py "                    <th>Вес</th>";
      py "                    <th>Файл</th>";
      py "                    <th>Цена за кг.</th>";
      py "                </tr>";
      py "        " ].

(** Lines 163-167. *)
Definition html_tail : pystr :=
  join_lines
    [ [];
      py "            </table>";
      py "        </body>";
      py "        </html>";
      py "        " ].

Definition tr_open : pystr :=
  join_lines [ []; py "                <tr>"; py "                    <td>" ].

Definition td_next : pystr :=
  join_lines [ py "</td>"; py "                    <td>" ].

Definition tr_close : pystr :=
  join_lines [ py "</td>"; py "                </tr>"; py "            " ].

(** [str(x)] for a weight: a float or [None]. *)
Definition str_of_weight (w : option float) : pystr :=
  match w with
  | Some x => str_of_float x
  | None => py "None"
  end.

(** Lines 149-161: the text added for one record. *)
Definition html_tr (idx : nat) (x : item) : pystr :=
  tr_open ++ str_of_N (N.of_nat idx) ++
  td_next ++ str_of_cell (product x) ++
  td_next ++ str_of_cell (price x) ++
  td_next ++ str_of_weight (weight x) ++
  td_next ++ file x ++
  td_next ++ price_per_kg_formatted x ++
  tr_close.

(** [export_to_html]: the text written to the file. *)
Definition export_to_html (data : list item) : pystr :=
  let sorted_data := sorted sort_key data in
  let result :=
    fold_left (fun result ix => result ++ html_tr (fst ix) (snd ix))
              (enumerate 1 sorted_data) html_head in
  result ++ html_tail.

(** Line 173. *)
Definition export_message (fname : pystr) : pystr :=
  py "Данные успешно экспортированы в " ++ fname.

(** ** The listing of the results, lines 206-212 *)

(** [format(v, '<width')] where [v] is a string or [None]: [None] does
    not take a format. *)
Definition format_str (width : nat) (v : option pystr) : result pystr :=
  match v with
  | Some s => Ok (ljust width s)
  | None => Raise TypeError
  end.

(** [format(v, '<width')] where [v] is a float or [None]. *)
Definition format_float (width : nat) (v : option float) : result pystr :=
  match v with
  | Some x => Ok (ljust width (str_of_float x))
  | None => Raise TypeError
  end.

(** Line 207. *)
Definition listing_head : pystr :=
  ljust 5 (py "№") ++ ljust 40 (py "Наименование") ++ ljust 10 (py "Цена") ++
  ljust 10 (py "Вес") ++ ljust 15 (py "Файл") ++ ljust 10 (py "Цена за кг.").

(** Line 210: the fields are formatted from left to right. *)
Definition listing_line (idx : nat) (x : item) : result pystr :=
  let number := ljust 5 (str_of_N (N.of_nat idx)) in
  product_text <- format_str 40 (product x) ;;
  price_text <- format_str 10 (price x) ;;
  weight_text <- format_float 10 (weight x) ;;
  let file_text := ljust 15 (file x) in
  let per_kg_text :=
    match price_per_kg x with
    | Some v => if float_truthy v then ljust 10 (str_of_float v)
                else ljust 10 (py "N/A")
    | None => ljust 10 (py "N/A")
    end in
  Ok (number ++ product_text ++ price_text ++ weight_text ++ file_text
      ++ per_kg_text).

(** The loop of lines 208-210 over [enumerate(results, start)]: the
    lines printed so far and the exception that ends it, if any. *)
Fixpoint print_results (start : nat) (results : list item) (out : list pystr)
  : list pystr * option exn :=
  match results with
  | [] => (out, None)
  | x :: results' =>
    match listing_line start x with
    | Ok line => print_results (S start) results' (out ++ [line])
    | Raise e => (out, Some e)
    end
  end.

(** ** The loop of lines 198-212 *)

(** [inputs] are the lines that [input] returns one after the other,
    [out] the lines that [print] has written. *)
Fixpoint query_loop (data : list item) (inputs : list pystr)
    (out : list pystr) : list pystr * stop :=
  match inputs with
  | [] => (out, EndOfInput)
  | line :: inputs' =>
    let query := str_strip line in
    if PyStr.eqb (str_lower query) (py "exit") then
      (out ++ [py "Работа завершена."], Exit)
    else
      match find_text data query with
      | Raise e => (out, Uncaught e)
      | Ok [] => query_loop data inputs' (out ++ [py "Совпадений не найдено."])
      | Ok results =>
        match print_results 1 results (out ++ [listing_head]) with
        | (out', None) => query_loop data inputs' out'
        | (out', Some e) => (out', Uncaught e)
        end
      end
  end.

(** ** The script, lines 191-216 *)

(** What a run leaves: the errors reported by [load_prices], the lines
    printed after them, how the run ends, and the text of
    [output.html] when it is written. *)
Record run : Type := mk_run {
  run_errors : log;
  run_lines : list pystr;
  run_stop : stop;
  run_html : option pystr
}.

(** [walk_of] gives what [os.walk] yields for a path. *)
Definition main (walk_of : pystr -> list dir_file) (inputs : list pystr) : run :=
  match inputs with
  | [] => mk_run [] [] EndOfInput None
  | line :: inputs' =>
    let catalog_path := str_strip line in
    let '(data, errors) := load_prices [] (walk_of catalog_path) in
    match query_loop data inputs' [] with
    | (out, Exit) =>
      mk_run errors
             (out ++ [export_message (py "output.html");
                      py "Данные сохранены в HTML файл."])
             Exit (Some (export_to_html data))
    | (out, ending) => mk_run errors out ending None
    end
  end.

(** ** Vocabulary of the properties of the script *)

(** The files that [load_prices] reads: the name contains [price],
    whatever the case, and the path ends with [.csv] as written. *)
Definition is_price_csv (f : dir_file) : bool :=
  PyStr.contains (py "price") (str_lower (f_name f)) &&
  PyStr.endswith (py ".csv") (Path.join (f_root f) (f_name f)).

(** A name without separator, as [os.walk] gives them. *)
Definition plain_name (name : pystr) : bool :=
  negb (existsb (N.eqb Path.sep) name).

(** A price per kilogram that is present is the quotient of the price,
    read as a float, by a weight that is present and positive. *)
Definition price_per_kg_justified (x : item) : Prop :=
  match price_per_kg x with
  | Some r =>
    exists w s p,
      weight x = Some w /\ (0 <? w)%float = true /\
      price x = Some s /\ float_of_str s = Some p /\ r = (p / w)%float
  | None => True
  end.

(** The records that line 210 can format: product, price and weight
    are all present. *)
Definition listable (x : item) : bool :=
  match product x, price x, weight x with
  | Some _, Some _, Some _ => true
  | _, _, _ => false
  end.

(** The line of input that leaves the loop. *)
Definition is_exit (line : pystr) : bool :=
  PyStr.eqb (str_lower (str_strip line)) (py "exit").

(** The text of a table row made from its cells. *)
Definition html_of_row (row : html_row) : pystr :=
  tr_open ++ str_of_N (N.of_nat (td_idx row)) ++
  td_next ++ td_product row ++
  td_next ++ td_price row ++
  td_next ++ str_of_weight (td_weight row) ++
  td_next ++ td_file row ++
  td_next ++ td_price_per_kg row ++
  tr_close.

End Script.

(** [str(x)] for the floats whose value is a whole number below
    [10^16], the zeros, [inf] and [nan]; the other floats are outside
    this instance, which answers the empty text for them. *)
Definition str_of_whole_float (x : float) : pystr :=
  match Prim2SF x with
  | S754_nan => py "nan"
  | S754_infinity s => if s then py "-inf" else py "inf"
  | S754_zero s => (if s then py "-" else []) ++ py "0.0"
  | S754_finite s m e =>
    let whole :=
      match e with
      | Zneg p =>
        if (Zpos m mod 2 ^ Zpos p =? 0)%Z then Some (Zpos m / 2 ^ Zpos p)%Z
        else None
      | _ => Some (Zpos m * 2 ^ e)%Z
      end in
    match whole with
    | Some n =>
      if (n <? 10 ^ 16)%Z then
        (if s then py "-" else []) ++ str_of_N (Z.to_N n) ++ py ".0"
      else []
    | None => []
    end
  end.

(** [strip] of the instance removes the blanks of ASCII. *)
#[export] Instance simple_text : PyText := {|
  str_strip := PyBuiltins.strip;
  str_of_float := str_of_whole_float
|}.

(* ================================================================== *)
(** * Properties *)

(* ================================================================== *)
(** * Facts about the comparison of floats *)

Module FloatOrder.

(** The specification of the comparison, case by case. *)
Ltac sf_cases :=
  repeat match goal with
  | f : spec_float |- _ => destruct f as [[|]|[|]| |[|] ? ?]
  end;
  cbn [SFltb SFeqb SFleb SFcompare] in *;
  change (Pos.compare_cont Eq) with Pos.compare in *;
  try congruence;
  repeat match goal with
  | |- context [Z.compare ?a ?b] => destruct (Z.compare_spec a b)
  | H : context [Z.compare ?a ?b] |- _ => destruct (Z.compare_spec a b)
  | |- context [Pos.compare ?a ?b] => destruct (Pos.compare_spec a b)
  | H : context [Pos.compare ?a ?b] |- _ => destruct (Pos.compare_spec a b)
  end;
  cbn [CompOpp] in *;
  try congruence; try lia.

Lemma SFltb_asym (a b : spec_float) :
  SFltb a b = true -> SFltb b a = false.
Proof. intros H. sf_cases. Qed.

Lemma SFltb_negtrans (a b c : spec_float) :
  b <> S754_nan ->
  SFltb b a = false -> SFltb c b = false -> SFltb c a = false.
Proof. intros Hb H1 H2. sf_cases. Qed.

Lemma SFltb_eqb (a b k : spec_float) :
  SFltb a b = true -> SFeqb b k = true -> SFeqb a k = false.
Proof. intros H1 H2. sf_cases. Qed.

Lemma SFltb_neqb (a b : spec_float) :
  SFltb a b = true -> SFeqb b a = false.
Proof. intros H. sf_cases. Qed.

Lemma SFleb_nltb (a b : spec_float) :
  SFleb a b = true -> SFltb b a = false.
Proof. intros H. sf_cases. Qed.

Lemma SFeqb_refl (a : spec_float) :
  a <> S754_nan -> SFeqb a a = true.
Proof. intros H. sf_cases. Qed.

Lemma SFeqb_nan (a : spec_float) :
  SFeqb a a = true -> a <> S754_nan.
Proof. intros H. sf_cases. Qed.

Lemma SFltb_total (a b : spec_float) :
  a <> S754_nan -> b <> S754_nan ->
  SFltb a b = false -> SFltb b a = false -> SFeqb a b = true.
Proof. intros Ha Hb H1 H2. sf_cases. Qed.

(** The same facts on primitive floats. *)

Lemma ltb_asym (x y : float) :
  (x <? y)%float = true -> (y <? x)%float = false.
Proof. rewrite !ltb_spec. apply SFltb_asym. Qed.

Lemma is_nan_spec (x : float) :
  is_nan x = false <-> Prim2SF x <> S754_nan.
Proof.
  unfold is_nan. rewrite eqb_spec, negb_false_iff. split.
  - apply SFeqb_nan.
  - apply SFeqb_refl.
Qed.

Lemma ltb_negtrans (a b c : float) :
  is_nan b = false ->
  (b <? a)%float = false -> (c <? b)%float = false -> (c <? a)%float = false.
Proof.
  rewrite is_nan_spec, !ltb_spec. apply SFltb_negtrans.
Qed.

Lemma ltb_eqb (a b k : float) :
  (a <? b)%float = true -> (b =? k)%float = true -> (a =? k)%float = false.
Proof. rewrite ltb_spec, !eqb_spec. apply SFltb_eqb. Qed.

Lemma ltb_neqb (a b : float) :
  (a <? b)%float = true -> (b =? a)%float = false.
Proof. rewrite ltb_spec, eqb_spec. apply SFltb_neqb. Qed.

Lemma leb_nltb (a b : float) :
  (a <=? b)%float = true -> (b <? a)%float = false.
Proof. rewrite leb_spec, ltb_spec. apply SFleb_nltb. Qed.

Lemma nltb_eqb (a b : float) :
  is_nan a = false -> is_nan b = false ->
  (a <? b)%float = false -> (b <? a)%float = false -> (a =? b)%float = true.
Proof. rewrite !is_nan_spec, !ltb_spec, eqb_spec. apply SFltb_total. Qed.

End FloatOrder.

(* ================================================================== *)
(** * Facts about the format [.2f] *)

Module Format.

Lemma uint_codes_digits (d : Decimal.uint) :
  forallb PyStr.is_digit (uint_codes d) = true.
Proof. induction d; cbn; try assumption; reflexivity. Qed.

Lemma str_of_N_nonempty (n : N) : str_of_N n <> [].
Proof.
  unfold str_of_N. destruct n as [|p]; cbn; [discriminate|].
  pose proof (DecimalPos.Unsigned.to_uint_nonnil p) as H.
  destruct (Pos.to_uint p); cbn; congruence.
Qed.

Lemma digit_of_mod (z : Z) :
  PyStr.is_digit (48 + Z.to_N (z mod 10)) = true.
Proof.
  pose proof (Z.mod_pos_bound z 10 ltac:(lia)) as H.
  unfold PyStr.is_digit. apply andb_true_intro.
  split; apply N.leb_le; lia.
Qed.

Lemma forallb_rev {A : Type} (f : A -> bool) (l : list A) :
  forallb f l = true -> forallb f (rev l) = true.
Proof.
  rewrite !forallb_forall. intros H x Hx. apply H, in_rev, Hx.
Qed.

Lemma two_decimals_digits (ip : pystr) (d1 d2 : N) :
  ip <> [] -> forallb PyStr.is_digit ip = true ->
  PyStr.is_digit d1 = true -> PyStr.is_digit d2 = true ->
  two_decimals (ip ++ [46%N; d1; d2]) = true /\
  two_decimals (45%N :: ip ++ [46%N; d1; d2]) = true.
Proof.
  intros Hne Hip H1 H2.
  assert (Hrev : match rev (ip ++ [46%N; d1; d2]) with
                 | d2 :: d1 :: 46%N :: ip =>
                   PyStr.is_digit d2 && PyStr.is_digit d1 &&
                   forallb PyStr.is_digit ip && PyStr.truthy ip
                 | _ => false
                 end = true).
  { rewrite rev_app_distr. cbn [rev app]. rewrite H1, H2, (forallb_rev _ _ Hip).
    cbn [andb]. destruct (rev ip) eqn:E; [|reflexivity].
    apply (f_equal (@rev N)) in E. rewrite rev_involutive in E. contradiction. }
  split; [|exact Hrev].
  unfold two_decimals. destruct ip as [|c ip]; [contradiction|].
  cbn [app] in *. cbn [forallb] in Hip. apply andb_prop in Hip.
  destruct Hip as [Hc _]. destruct (N.eqb_spec c 45) as [->|_]; [discriminate Hc|].
  exact Hrev.
Qed.

Lemma fixed2_two_decimals (sign : bool) (h : Z) :
  two_decimals (fixed2 sign h) = true.
Proof.
  unfold fixed2.
  destruct (two_decimals_digits
              (str_of_N (Z.to_N (h / 100)))
              (48 + Z.to_N ((h / 10) mod 10)) (48 + Z.to_N (h mod 10))
              (str_of_N_nonempty _) (uint_codes_digits _)
              (digit_of_mod _) (digit_of_mod _)) as [Hp Hm].
  destruct sign; [exact Hm|exact Hp].
Qed.

(** A finite float is a zero or a number with mantissa and exponent. *)
Lemma is_finite_spec (x : float) :
  is_finite x = true ->
  match Prim2SF x with
  | S754_zero _ | S754_finite _ _ _ => True
  | _ => False
  end.
Proof.
  unfold is_finite, is_nan, is_infinity.
  rewrite !eqb_spec, abs_spec.
  change (Prim2SF infinity) with (S754_infinity false).
  destruct (Prim2SF x) as [s|[|]| |s m e]; cbn; try discriminate; trivial.
Qed.

(** A finite float is written with exactly two decimal places. *)
Lemma format_2f_finite (x : float) :
  is_finite x = true -> two_decimals (format_2f x) = true.
Proof.
  intros H. apply is_finite_spec in H. unfold format_2f.
  destruct (Prim2SF x) as [s|s| |s m e]; try contradiction;
    apply fixed2_two_decimals.
Qed.

(** No float is written as the text [N/A]. *)
Lemma format_2f_not_na (x : float) : format_2f x <> py "N/A".
Proof.
  unfold format_2f. destruct (Prim2SF x) as [s|[|]| |s m e].
  - intros E. pose proof (fixed2_two_decimals s 0) as H.
    rewrite E in H. discriminate H.
  - discriminate.
  - discriminate.
  - discriminate.
  - intros E. pose proof (fixed2_two_decimals s (hundredths m e)) as H.
    rewrite E in H. discriminate H.
Qed.

End Format.

(* ================================================================== *)
(** * Facts about [sorted] *)

Section SortedFacts.
Variable A : Type.
Variable key : A -> float.

Local Abbreviation key_le := (key_le key).
Local Abbreviation keys_ordered := (keys_ordered key).

Lemma insert_sorted_perm (x : A) (l : list A) :
  Permutation (x :: l) (insert_sorted key x l).
Proof.
  induction l as [|y l IH]; cbn.
  - apply Permutation_refl.
  - destruct (key y <? key x)%float.
    + eapply Permutation_trans; [apply perm_swap|].
      apply perm_skip, IH.
    + apply Permutation_refl.
Qed.

Lemma sorted_perm (l : list A) : Permutation l (sorted key l).
Proof.
  induction l as [|x l IH]; cbn.
  - apply perm_nil.
  - eapply Permutation_trans; [apply perm_skip, IH|].
    apply insert_sorted_perm.
Qed.

Lemma sorted_length (l : list A) : List.length (sorted key l) = List.length l.
Proof. symmetry. apply Permutation_length, sorted_perm. Qed.

Lemma keys_ordered_perm (l l' : list A) :
  Permutation l l' -> keys_ordered l -> keys_ordered l'.
Proof. intros HP H. eapply Permutation_Forall; eassumption. Qed.

Lemma insert_sorted_strongly (x : A) (l : list A) :
  keys_ordered l ->
  StronglySorted key_le l -> StronglySorted key_le (insert_sorted key x l).
Proof.
  intros Hn Hs. induction Hs as [|y l Hs IH Hy]; cbn.
  - repeat constructor.
  - inversion Hn as [|? ? Hny Hnl]; subst.
    destruct (key y <? key x)%float eqn:E.
    + constructor; [apply IH, Hnl|].
      eapply Permutation_Forall; [apply insert_sorted_perm|].
      constructor; [|exact Hy].
      apply FloatOrder.ltb_asym, E.
    + constructor; [constructor; assumption|].
      constructor; [exact E|].
      eapply Forall_impl; [|exact Hy].
      intros z Hz. unfold key_le in *.
      eapply FloatOrder.ltb_negtrans; eassumption.
Qed.

Lemma sorted_strongly (l : list A) :
  keys_ordered l -> StronglySorted key_le (sorted key l).
Proof.
  induction l as [|x l IH]; intros Hn; cbn.
  - constructor.
  - inversion Hn; subst.
    apply insert_sorted_strongly.
    + eapply keys_ordered_perm; [apply sorted_perm|assumption].
    + apply IH; assumption.
Qed.

(** Stability: the records of any one key keep their order. *)
Lemma insert_sorted_stable (k : float) (x : A) (l : list A) :
  filter (fun y => (key y =? k)%float) (insert_sorted key x l) =
  filter (fun y => (key y =? k)%float) (x :: l).
Proof.
  induction l as [|y l IH]; [reflexivity|].
  cbn [insert_sorted]. destruct (key y <? key x)%float eqn:E; [|reflexivity].
  cbn [filter] in *. rewrite IH.
  destruct (key x =? k)%float eqn:Ex; [|reflexivity].
  rewrite (FloatOrder.ltb_eqb _ _ _ E Ex). reflexivity.
Qed.

Lemma sorted_stable (k : float) (l : list A) :
  filter (fun y => (key y =? k)%float) (sorted key l) =
  filter (fun y => (key y =? k)%float) l.
Proof.
  induction l as [|x l IH]; [reflexivity|].
  cbn [sorted]. rewrite insert_sorted_stable. cbn [filter].
  rewrite IH. reflexivity.
Qed.

(** A list in order is left as it is. *)
Lemma sorted_fixed (l : list A) :
  StronglySorted key_le l -> sorted key l = l.
Proof.
  induction 1 as [|x l Hs IH Hx]; [reflexivity|].
  cbn [sorted]. rewrite IH.
  destruct Hx as [|y l' Hy _]; [reflexivity|].
  cbn [insert_sorted]. unfold key_le in Hy. rewrite Hy. reflexivity.
Qed.

Lemma strongly_filter (p : A -> bool) (l : list A) :
  StronglySorted key_le l -> StronglySorted key_le (filter p l).
Proof.
  induction 1 as [|x l Hs IH Hx]; cbn; [constructor|].
  destruct (p x); [|exact IH].
  constructor; [exact IH|].
  rewrite Forall_forall in *. intros y Hy.
  apply filter_In in Hy. apply Hx, Hy.
Qed.

(** Filtering commutes with inserting into a list in order. *)
Lemma filter_insert_sorted (p : A -> bool) (x : A) (l : list A) :
  keys_ordered l -> StronglySorted key_le l ->
  filter p (insert_sorted key x l) =
  if p x then insert_sorted key x (filter p l) else filter p l.
Proof.
  intros Hn Hs. induction Hs as [|y l Hs IH Hy].
  - cbn. destruct (p x); reflexivity.
  - inversion Hn as [|? ? Hny Hnl]; subst.
    cbn [insert_sorted]. destruct (key y <? key x)%float eqn:E.
    + cbn [filter]. rewrite (IH Hnl).
      destruct (p x), (p y); cbn [insert_sorted]; rewrite ?E; reflexivity.
    + cbn [filter]. destruct (p x); [|reflexivity].
      destruct (p y) eqn:Py.
      * cbn [insert_sorted]. rewrite E. reflexivity.
      * destruct (filter p l) as [|z l'] eqn:Ef; [reflexivity|].
        cbn [insert_sorted].
        assert (Hz : In z (filter p l)) by (rewrite Ef; left; reflexivity).
        apply filter_In in Hz. destruct Hz as [Hz _].
        rewrite Forall_forall in Hy. specialize (Hy z Hz).
        unfold key_le in Hy.
        rewrite (FloatOrder.ltb_negtrans _ _ _ Hny E Hy). reflexivity.
Qed.

Lemma sorted_filter (p : A -> bool) (l : list A) :
  keys_ordered l ->
  sorted key (filter p l) = filter p (sorted key l).
Proof.
  induction l as [|x l IH]; intros Hn; [reflexivity|].
  inversion Hn; subst. cbn [sorted filter].
  rewrite filter_insert_sorted.
  - destruct (p x); cbn [sorted]; rewrite IH by assumption; reflexivity.
  - eapply keys_ordered_perm; [apply sorted_perm|assumption].
  - apply sorted_strongly; assumption.
Qed.

Lemma ltb_irrefl (x : float) : (x <? x)%float = false.
Proof.
  destruct (x <? x)%float eqn:E; [|reflexivity].
  pose proof (FloatOrder.ltb_asym _ _ E) as E'. congruence.
Qed.

(** Two lists in order with the same records, in which the records of
    any one key stand in the same order, are equal. *)
Lemma stable_sorted_unique (l1 : list A) :
  forall l2,
    keys_ordered l1 ->
    Permutation l1 l2 ->
    StronglySorted key_le l1 -> StronglySorted key_le l2 ->
    (forall k,
        filter (fun x => (key x =? k)%float) l1 =
        filter (fun x => (key x =? k)%float) l2) ->
    l1 = l2.
Proof.
  induction l1 as [|h1 l1 IH]; intros l2 Hn HP H1 H2 Hf.
  - apply Permutation_nil in HP. symmetry. exact HP.
  - destruct l2 as [|h2 l2];
      [apply Permutation_sym, Permutation_nil_cons in HP; contradiction|].
    inversion H1 as [|? ? H1' Hall1]; subst.
    inversion H2 as [|? ? H2' Hall2]; subst.
    inversion Hn as [|? ? Hn1 Hnl]; subst.
    assert (Hn2 : is_nan (key h2) = false).
    { pose proof (Permutation_in h2 (Permutation_sym HP) (or_introl eq_refl)) as Hin.
      apply (proj1 (Forall_forall _ _) Hn), Hin. }
    assert (H21 : (key h2 <? key h1)%float = false).
    { destruct (Permutation_in h2 (Permutation_sym HP) (or_introl eq_refl))
        as [<-|Hin]; [apply ltb_irrefl|].
      rewrite Forall_forall in Hall1. apply Hall1, Hin. }
    assert (H12 : (key h1 <? key h2)%float = false).
    { destruct (Permutation_in h1 HP (or_introl eq_refl))
        as [<-|Hin]; [apply ltb_irrefl|].
      rewrite Forall_forall in Hall2. apply Hall2, Hin. }
    pose proof (Hf (key h1)) as Hk. cbn [filter] in Hk.
    rewrite (FloatOrder.nltb_eqb _ _ Hn1 Hn1 (ltb_irrefl _) (ltb_irrefl _)) in Hk.
    rewrite (FloatOrder.nltb_eqb _ _ Hn2 Hn1 H21 H12) in Hk.
    injection Hk as -> _. f_equal.
    apply IH; try assumption.
    + eapply Permutation_cons_inv, HP.
    + intros k. specialize (Hf k). cbn [filter] in Hf.
      destruct (key h2 =? k)%float; [injection Hf as Hf|]; exact Hf.
Qed.

(** Hence [sorted] is the only stable sort: whatever list is a
    permutation of [l] in ascending order of the keys that keeps the
    order of the records of equal key is [sorted key l]. *)
Lemma sorted_unique (l l' : list A) :
  keys_ordered l ->
  Permutation l l' ->
  StronglySorted key_le l' ->
  (forall k,
      filter (fun x => (key x =? k)%float) l' =
      filter (fun x => (key x =? k)%float) l) ->
  l' = sorted key l.
Proof.
  intros Hn HP Hs Hf. symmetry.
  apply stable_sorted_unique.
  - eapply keys_ordered_perm; [apply sorted_perm|exact Hn].
  - eapply Permutation_trans; [apply Permutation_sym, sorted_perm|exact HP].
  - apply sorted_strongly, Hn.
  - exact Hs.
  - intros k. rewrite sorted_stable, Hf. reflexivity.
Qed.

Lemma strongly_before (a b : A) (l : list A) :
  StronglySorted key_le l -> before a b l -> key_le a b.
Proof.
  intros Hs (l1 & l2 & l3 & ->).
  induction l1 as [|c l1 IH]; cbn in Hs; inversion Hs as [|? ? Hs' Hall]; subst.
  - rewrite Forall_forall in Hall. apply Hall.
    apply in_or_app. right. left. reflexivity.
  - apply IH, Hs'.
Qed.

End SortedFacts.

Section Properties.
Context {builtin : PyBuiltin}.

(* ================================================================== *)
(** * The header classifier *)


Lemma enumerate_cons {A : Type} (start : nat) (x : A) (l : list A) :
  enumerate start (x :: l) = (start, x) :: enumerate (S start) l.
Proof. reflexivity. Qed.

Lemma search_roles (headers : list pystr) (start : nat)
    (p c w : option nat) :
  fold_left search_step (enumerate start headers) (p, c, w) =
  (last_index product_keywords start headers p,
   last_index price_keywords start headers c,
   last_index weight_keywords start headers w).
Proof.
  revert start p c w. induction headers as [|h headers IH]; intros; [reflexivity|].
  unfold last_index. rewrite enumerate_cons. cbn [fold_left].
  unfold search_step at 2. cbn [fst snd]. rewrite IH. reflexivity.
Qed.

(** With columns numbered from [start], [last_index] is the last
    matching column, or the initial value when no column matches. *)
Lemma last_index_spec (keywords : list pystr) (headers : list pystr) :
  forall start init,
    match last_index keywords start headers init with
    | Some i =>
      (exists h, nth_error headers (i - start) = Some h /\
                 start <= i /\ header_matches keywords h = true /\
                 forall j h', i - start < j -> nth_error headers j = Some h' ->
                              header_matches keywords h' = false)
      \/ (init = Some i /\
          forall j h', nth_error headers j = Some h' ->
                       header_matches keywords h' = false)
    | None =>
      init = None /\
      forall j h', nth_error headers j = Some h' ->
                   header_matches keywords h' = false
    end.
Proof.
  induction headers as [|h headers IH]; intros start init.
  - cbn. destruct init; [right|]; split; try reflexivity;
      intros [|j] h' Hj; discriminate Hj.
  - unfold last_index. rewrite enumerate_cons. cbn [fold_left fst snd].
    fold (last_index keywords (S start) headers
            (if header_matches keywords h then Some start else init)).
    specialize (IH (S start)
                   (if header_matches keywords h then Some start else init)).
    destruct (last_index keywords (S start) headers _) as [i|].
    + destruct IH as [(h0 & Hn & Hle & Hm & Hlast) | [Hinit Hnone]].
      * left. exists h0. replace (i - start) with (S (i - S start)) by lia.
        cbn [nth_error]. repeat split; try assumption; try lia.
        intros [|j] h' Hj Hn'; [lia|]. cbn in Hn'.
        apply (Hlast j); [lia|assumption].
      * destruct (header_matches keywords h) eqn:Eh.
        -- injection Hinit as <-. left. exists h.
           rewrite Nat.sub_diag. cbn [nth_error].
           repeat split; try assumption; try lia.
           intros [|j] h' Hj Hn'; [lia|]. cbn in Hn'. eapply Hnone, Hn'.
        -- right. split; [assumption|].
           intros [|j] h' Hn'; cbn in Hn'.
           ++ injection Hn' as <-. assumption.
           ++ eapply Hnone, Hn'.
    + destruct IH as [Hinit Hnone].
      destruct (header_matches keywords h) eqn:Eh; [discriminate|].
      split; [assumption|].
      intros [|j] h' Hn'; cbn in Hn'.
      * injection Hn' as <-. assumption.
      * eapply Hnone, Hn'.
Qed.

Lemma last_index_last_match (keywords : list pystr) (headers : list pystr) :
  last_match keywords headers (last_index keywords 0 headers None).
Proof.
  pose proof (last_index_spec keywords headers 0 None) as H.
  unfold last_match. destruct (last_index keywords 0 headers None) as [i|].
  - destruct H as [(h & Hn & _ & Hm & Hlast) | [Hinit _]]; [|discriminate].
    rewrite Nat.sub_0_r in *. split; [exists h; split; assumption|].
    exact Hlast.
  - apply H.
Qed.

(** C1, as the code has it: each role goes to the LAST header, in
    column order, whose lower-cased text contains one of the keywords
    of the role (a later matching header replaces an earlier one), and
    a role that no header matches is left unassigned. *)
Theorem search_assigns_last_match (headers : list pystr) :
  let '(product_idx, price_idx, weight_idx) := _search_product_price_weight headers in
  last_match product_keywords headers product_idx /\
  last_match price_keywords headers price_idx /\
  last_match weight_keywords headers weight_idx.
Proof.
  unfold _search_product_price_weight. rewrite search_roles.
  repeat split; apply last_index_last_match.
Qed.

Lemma last_match_in_range (keywords headers : list pystr) (i : nat) :
  last_match keywords headers (Some i) -> i < List.length headers.
Proof.
  intros [(h & Hn & _) _]. apply nth_error_Some. congruence.
Qed.


(* ================================================================== *)
(** * Ingestion *)


(** ** The price per kilogram *)

Lemma price_per_kg_nonpositive (price : option pystr) (w : float) :
  (w <=? 0)%float = true -> compute_price_per_kg price (Some w) = Ok None.
Proof.
  intros Hw. unfold compute_price_per_kg.
  rewrite (FloatOrder.leb_nltb _ _ Hw).
  destruct (float_truthy w); reflexivity.
Qed.

Lemma price_per_kg_present (price : option pystr) (weight_kg : option float)
    (r : float) :
  compute_price_per_kg price weight_kg = Ok (Some r) ->
  exists w, weight_kg = Some w /\ (0 <? w)%float = true.
Proof.
  unfold compute_price_per_kg.
  destruct weight_kg as [w|]; [|discriminate].
  destruct (float_truthy w); [|discriminate].
  destruct (0 <? w)%float eqn:Hw; [|discriminate].
  intros _. exists w. split; [reflexivity|exact Hw].
Qed.

Lemma price_per_kg_no_zero_division (price : option pystr)
    (weight_kg : option float) :
  compute_price_per_kg price weight_kg <> Raise ZeroDivisionError.
Proof.
  unfold compute_price_per_kg.
  destruct weight_kg as [w|]; [|discriminate].
  destruct (float_truthy w); [|discriminate].
  destruct (0 <? w)%float eqn:Hw; [|discriminate].
  unfold py_float. destruct price as [s|]; [|discriminate].
  destruct (float_of_str s) as [v|]; [|discriminate].
  cbn [bind]. unfold float_truediv.
  rewrite (FloatOrder.ltb_neqb _ _ Hw). discriminate.
Qed.

(** What a record made by [process_row] holds. *)
Lemma process_row_ok (headers : list pystr) (product_idx price_idx : nat)
    (weight_idx : option nat) (file_path : pystr)
    (row : Dict.t (option pystr)) (x : item) :
  process_row headers product_idx price_idx weight_idx file_path row = Ok x ->
  exists weight_cell,
    weight x = parse_weight weight_cell /\
    compute_price_per_kg (price x) (weight x) = Ok (price_per_kg x).
Proof.
  unfold process_row.
  destruct (list_getitem headers product_idx) as [ph|]; [|discriminate].
  cbn [bind]. destruct (Dict.getitem ph row) as [product|]; [|discriminate].
  cbn [bind]. destruct (list_getitem headers price_idx) as [ch|]; [|discriminate].
  cbn [bind]. destruct (Dict.getitem ch row) as [price|]; [|discriminate].
  cbn [bind].
  destruct (match weight_idx with
            | Some wi => _
            | None => Ok None
            end) as [weight_cell|]; [|discriminate].
  cbn [bind].
  destruct (compute_price_per_kg price
              (parse_weight weight_cell)) as [ppk|] eqn:E; [|discriminate].
  cbn [bind]. intros [= <-]. cbn. exists weight_cell. split; [reflexivity|exact E].
Qed.

Lemma bind_raise {A B : Type} (m : result A) (k : A -> result B) (e : exn) :
  m <> Raise e -> (forall a, k a <> Raise e) -> bind m k <> Raise e.
Proof.
  intros Hm Hk. destruct m as [a|e']; cbn [bind]; [apply Hk|congruence].
Qed.

Lemma list_getitem_raise {A : Type} (l : list A) (i : nat) :
  list_getitem l i <> Raise ZeroDivisionError.
Proof. unfold list_getitem. destruct (nth_error l i); discriminate. Qed.

Lemma dict_getitem_raise {V : Type} (k : pystr) (d : Dict.t V) :
  Dict.getitem k d <> Raise ZeroDivisionError.
Proof. unfold Dict.getitem. destruct (Dict.get k d); discriminate. Qed.

Lemma process_row_raise (headers : list pystr) (product_idx price_idx : nat)
    (weight_idx : option nat) (file_path : pystr)
    (row : Dict.t (option pystr)) :
  process_row headers product_idx price_idx weight_idx file_path row
  <> Raise ZeroDivisionError.
Proof.
  unfold process_row.
  repeat first
    [ apply bind_raise; [|intros ?]
    | apply list_getitem_raise
    | apply dict_getitem_raise
    | apply price_per_kg_no_zero_division
    | discriminate
    | destruct weight_idx ].
Qed.

(** ** The rows of the reader *)

Lemma pystr_eqb_eq (a b : pystr) : PyStr.eqb a b = true <-> a = b.
Proof.
  revert b. induction a as [|x a IH]; intros [|y b]; cbn;
    try (split; [discriminate|discriminate]); try (split; reflexivity).
  rewrite andb_true_iff, N.eqb_eq, IH. split.
  - intros [-> ->]. reflexivity.
  - intros [= -> ->]. split; reflexivity.
Qed.

Lemma pystr_eqb_refl (a : pystr) : PyStr.eqb a a = true.
Proof. apply pystr_eqb_eq. reflexivity. Qed.

Lemma dict_get_setitem {V : Type} (k k' : pystr) (v : V) (d : Dict.t V) :
  Dict.get k (Dict.setitem k' v d) =
  if PyStr.eqb k k' then Some v else Dict.get k d.
Proof.
  induction d as [|[k0 v0] d IH]; [reflexivity|].
  cbn [Dict.setitem Dict.get].
  destruct (PyStr.eqb k' k0) eqn:E'.
  - apply pystr_eqb_eq in E'. subst k0. cbn [Dict.get].
    destruct (PyStr.eqb k k'); reflexivity.
  - cbn [Dict.get]. rewrite IH.
    destruct (PyStr.eqb k k0) eqn:E0; [|reflexivity].
    apply pystr_eqb_eq in E0. subst k0.
    destruct (PyStr.eqb k k') eqn:E; [|reflexivity].
    apply pystr_eqb_eq in E. subst k'.
    rewrite pystr_eqb_refl in E'. discriminate E'.
Qed.

(** Writing under keys never removes a key, and leaves every key that
    is written. *)
Lemma fold_setitem_keeps {V X : Type} (f : X -> pystr) (g : X -> V)
    (k : pystr) (l : list X) :
  forall d,
    Dict.get k d <> None ->
    Dict.get k (fold_left (fun d x => Dict.setitem (f x) (g x) d) l d) <> None.
Proof.
  induction l as [|x l IH]; intros d H; [exact H|].
  cbn [fold_left]. apply IH. rewrite dict_get_setitem.
  destruct (PyStr.eqb k (f x)); [discriminate|exact H].
Qed.

Lemma fold_setitem_in {V X : Type} (f : X -> pystr) (g : X -> V)
    (x : X) (l : list X) :
  In x l ->
  forall d,
    Dict.get (f x) (fold_left (fun d x => Dict.setitem (f x) (g x) d) l d)
    <> None.
Proof.
  induction l as [|y l IH]; intros Hin d; [contradiction|].
  cbn [fold_left]. destruct Hin as [->|Hin].
  - apply fold_setitem_keeps. rewrite dict_get_setitem, pystr_eqb_refl.
    discriminate.
  - apply IH, Hin.
Qed.

Lemma combine_firstn_key {X Y : Type} (k : X) (l : list X) :
  forall l' : list Y,
    In k (firstn (List.length l') l) -> exists v, In (k, v) (combine l l').
Proof.
  induction l as [|x l IH]; intros [|y l'] H; cbn in H; try contradiction.
  destruct H as [->|H].
  - exists y. left. reflexivity.
  - destruct (IH l' H) as [v Hv]. exists v. right. exact Hv.
Qed.

(** Every field name is a key of every row of the reader. *)
Lemma dict_reader_row_key (fieldnames row : list pystr) (k : pystr) :
  In k fieldnames -> Dict.get k (dict_reader_row fieldnames row) <> None.
Proof.
  intros Hin. unfold dict_reader_row.
  rewrite <- (firstn_skipn (List.length row) fieldnames) in Hin.
  apply in_app_or in Hin. destruct Hin as [Hin|Hin].
  - apply (fold_setitem_keeps (fun key => key) (fun _ => None)).
    destruct (combine_firstn_key k fieldnames row Hin) as [v Hv].
    apply (fold_setitem_in fst (fun kv => Some (snd kv)) (k, v) _ Hv).
  - apply (fold_setitem_in (fun key => key) (fun _ => None) k _ Hin).
Qed.

Lemma fold_setitem_other {V X : Type} (f : X -> pystr) (g : X -> V)
    (k : pystr) (l : list X) :
  (forall x, In x l -> f x <> k) ->
  forall d,
    Dict.get k (fold_left (fun d x => Dict.setitem (f x) (g x) d) l d)
    = Dict.get k d.
Proof.
  induction l as [|y l IH]; intros Hk d; [reflexivity|].
  cbn [fold_left]. rewrite IH by (intros x Hx; apply Hk; right; exact Hx).
  rewrite dict_get_setitem.
  destruct (PyStr.eqb k (f y)) eqn:E; [|reflexivity].
  apply pystr_eqb_eq in E. symmetry in E.
  apply Hk in E; [contradiction|left; reflexivity].
Qed.

Lemma fold_setitem_nodup {V X : Type} (f : X -> pystr) (g : X -> V)
    (x : X) (l : list X) :
  NoDup (map f l) -> In x l ->
  forall d,
    Dict.get (f x) (fold_left (fun d x => Dict.setitem (f x) (g x) d) l d)
    = Some (g x).
Proof.
  induction l as [|y l IH]; intros Hnd Hin d; [contradiction|].
  cbn [map] in Hnd. inversion Hnd as [|? ? Hy Hnd']; subst.
  cbn [fold_left]. destruct Hin as [->|Hin].
  - rewrite fold_setitem_other.
    + rewrite dict_get_setitem, pystr_eqb_refl. reflexivity.
    + intros z Hz E. apply Hy. rewrite <- E. apply in_map, Hz.
  - apply IH; assumption.
Qed.

Lemma combine_keys_nodup {X Y : Type} (l : list X) :
  forall l' : list Y, NoDup l -> NoDup (map fst (combine l l')).
Proof.
  induction l as [|x l IH]; intros [|y l'] Hnd; cbn; try constructor.
  - inversion Hnd as [|? ? Hx _]; subst. intros Hin.
    apply in_map_iff in Hin. destruct Hin as ([x' y'] & E & Hin).
    cbn in E. subst x'. apply in_combine_l in Hin. contradiction.
  - inversion Hnd; subst. apply IH. assumption.
Qed.

Lemma combine_nth {X Y : Type} (l : list X) :
  forall (l' : list Y) i x y,
    nth_error l i = Some x -> nth_error l' i = Some y ->
    In (x, y) (combine l l').
Proof.
  induction l as [|a l IH]; intros [|b l'] [|i] x y Hx Hy;
    try discriminate; cbn in *.
  - injection Hx as ->. injection Hy as ->. left. reflexivity.
  - right. eapply IH; eassumption.
Qed.

Lemma skipn_in {X : Type} (n : nat) (l : list X) (x : X) :
  In x (skipn n l) -> In x l.
Proof.
  intros H. rewrite <- (firstn_skipn n l). apply in_or_app. right. exact H.
Qed.

Lemma skipn_nodup {X : Type} (n : nat) (l : list X) :
  NoDup l -> NoDup (skipn n l).
Proof.
  intros H. rewrite <- (firstn_skipn n l) in H.
  eapply NoDup_app_remove_l, H.
Qed.

Lemma skipn_nth {X : Type} (l : list X) :
  forall n i x, nth_error l i = Some x -> n <= i -> In x (skipn n l).
Proof.
  induction l as [|a l IH]; intros [|n] [|i] x Hx Hle;
    try discriminate; try lia; cbn in *.
  - injection Hx as ->. left. reflexivity.
  - right. eapply nth_error_In, Hx.
  - eapply IH; [exact Hx|lia].
Qed.

Lemma skipn_nth_nodup {X : Type} (l : list X) :
  forall n i x,
    NoDup l -> nth_error l i = Some x -> i < n -> ~ In x (skipn n l).
Proof.
  induction l as [|a l IH]; intros [|n] [|i] x Hnd Hx Hlt;
    try discriminate; try lia; cbn in *; inversion Hnd; subst.
  - injection Hx as ->. intros Hin. apply skipn_in in Hin. contradiction.
  - eapply IH; [assumption|exact Hx|lia].
Qed.

(** When no header occurs twice, the cell under the [i]-th header is
    the [i]-th field of the row. *)
Lemma reader_cell_nodup (headers row : list pystr) (i : nat) :
  NoDup headers -> i < List.length headers ->
  reader_cell headers row i = nth_error row i.
Proof.
  intros Hnd Hi. unfold reader_cell, dict_reader_row.
  destruct (nth_error headers i) as [h|] eqn:Eh;
    [|apply nth_error_None in Eh; lia].
  destruct (nth_error row i) as [c|] eqn:Ec.
  - assert (Hlt : i < List.length row)
      by (apply nth_error_Some; congruence).
    rewrite (fold_setitem_other (fun key => key) (fun _ => None)).
    + rewrite (fold_setitem_nodup fst (fun kv => Some (snd kv)) (h, c)).
      * reflexivity.
      * apply combine_keys_nodup, Hnd.
      * eapply combine_nth; eassumption.
    + intros z Hz ->. eapply skipn_nth_nodup; eassumption.
  - apply nth_error_None in Ec.
    rewrite (fold_setitem_nodup (fun key => key) (fun _ : pystr => @None pystr) h).
    + reflexivity.
    + rewrite map_id. apply skipn_nodup, Hnd.
    + eapply skipn_nth; eassumption.
Qed.

Lemma reader_getitem (headers row : list pystr) (i : nat) :
  i < List.length headers ->
  (header <- list_getitem headers i ;;
   Dict.getitem header (dict_reader_row headers row))
  = Ok (reader_cell headers row i).
Proof.
  intros Hi. unfold list_getitem, reader_cell.
  destruct (nth_error headers i) as [h|] eqn:E;
    [|apply nth_error_None in E; lia].
  cbn [bind]. unfold Dict.getitem.
  pose proof (dict_reader_row_key headers row h (nth_error_In _ _ E)) as Hk.
  destruct (Dict.get h (dict_reader_row headers row)) as [cell|];
    [reflexivity|contradiction].
Qed.

Lemma price_per_kg_raise (price : option pystr) (weight_kg : option float)
    (e : exn) :
  compute_price_per_kg price weight_kg = Raise e ->
  (e = ValueError \/ e = TypeError) /\
  exists w, weight_kg = Some w /\ (0 <? w)%float = true.
Proof.
  unfold compute_price_per_kg.
  destruct weight_kg as [w|]; [|discriminate].
  destruct (float_truthy w); [|discriminate].
  destruct (0 <? w)%float eqn:Hw; [|discriminate].
  intros H. split; [|exists w; split; [reflexivity|exact Hw]].
  unfold py_float in H. destruct price as [s|].
  - destruct (float_of_str s) as [v|].
    + cbn [bind] in H. unfold float_truediv in H.
      rewrite (FloatOrder.ltb_neqb _ _ Hw) in H. discriminate H.
    + cbn [bind] in H. injection H as <-. left. reflexivity.
  - cbn [bind] in H. injection H as <-. right. reflexivity.
Qed.

(** A row of the reader, in a file whose product and price roles are
    assigned, always gives its three cells: it only remains to compute
    the price per kilogram. *)
Lemma process_row_of_reader (headers : list pystr)
    (product_idx price_idx : nat) (weight_idx : option nat)
    (file_path : pystr) (row : list pystr) :
  _search_product_price_weight headers
  = (Some product_idx, Some price_idx, weight_idx) ->
  process_row headers product_idx price_idx weight_idx file_path
              (dict_reader_row headers row) =
  (price_per_kg <-
     compute_price_per_kg (reader_cell headers row price_idx)
       (parse_weight (reader_weight headers row weight_idx)) ;;
   Ok {| product := reader_cell headers row product_idx;
         price := reader_cell headers row price_idx;
         weight := parse_weight (reader_weight headers row weight_idx);
         file := Path.basename file_path;
         price_per_kg := price_per_kg |}).
Proof.
  intros Hs. unfold _search_product_price_weight in Hs.
  rewrite search_roles in Hs. injection Hs as Ep Ec Ew.
  pose proof (last_index_last_match product_keywords headers) as Hp.
  pose proof (last_index_last_match price_keywords headers) as Hc.
  pose proof (last_index_last_match weight_keywords headers) as Hw.
  rewrite Ep in Hp. rewrite Ec in Hc. rewrite Ew in Hw.
  apply last_match_in_range in Hp, Hc.
  pose proof (reader_getitem headers row product_idx Hp) as Eproduct.
  pose proof (reader_getitem headers row price_idx Hc) as Eprice.
  assert (Eweight :
            match weight_idx with
            | Some wi =>
              weight_header <- list_getitem headers wi ;;
              Dict.getitem weight_header (dict_reader_row headers row)
            | None => Ok None
            end = Ok (reader_weight headers row weight_idx)).
  { destruct weight_idx as [wi|]; [|reflexivity].
    apply last_match_in_range in Hw. apply reader_getitem, Hw. }
  unfold process_row.
  destruct (list_getitem headers product_idx) as [ph|]; [|discriminate].
  cbn [bind] in Eproduct |- *. rewrite Eproduct. cbn [bind].
  destruct (list_getitem headers price_idx) as [ch|]; [|discriminate].
  cbn [bind] in Eprice |- *. rewrite Eprice. cbn [bind].
  rewrite Eweight. cbn [bind]. reflexivity.
Qed.

(** C8: a weight that is zero or negative gives no price per kilogram
    and no division by zero - the row of the reader becomes a record
    without price per kilogram -; no row ever raises
    [ZeroDivisionError]; and a record has a price per kilogram only
    when its weight is present and strictly positive. *)
Theorem price_per_kg_needs_positive_weight :
  (forall headers product_idx price_idx weight_idx file_path row w,
      _search_product_price_weight headers
      = (Some product_idx, Some price_idx, weight_idx) ->
      parse_weight (reader_weight headers row weight_idx) = Some w ->
      (w <=? 0)%float = true ->
      process_row headers product_idx price_idx weight_idx file_path
                  (dict_reader_row headers row) =
      Ok {| product := reader_cell headers row product_idx;
            price := reader_cell headers row price_idx;
            weight := Some w;
            file := Path.basename file_path;
            price_per_kg := None |}) /\
  (forall headers product_idx price_idx weight_idx file_path row,
      match process_row headers product_idx price_idx weight_idx file_path row with
      | Ok x =>
        (forall w, weight x = Some w -> (w <=? 0)%float = true ->
                   price_per_kg x = None) /\
        (forall r, price_per_kg x = Some r ->
                   exists w, weight x = Some w /\ (0 <? w)%float = true)
      | Raise e => e <> ZeroDivisionError
      end).
Proof.
  split.
  - intros headers product_idx price_idx weight_idx file_path row w Hs Hw Hle.
    rewrite (process_row_of_reader _ _ _ _ file_path row Hs), Hw.
    rewrite (price_per_kg_nonpositive _ _ Hle). reflexivity.
  - intros headers product_idx price_idx weight_idx file_path row.
    destruct (process_row headers product_idx price_idx weight_idx file_path row)
      as [x|e] eqn:E.
    + apply process_row_ok in E. destruct E as (wc & _ & Hc). split.
      * intros w Hw Hle. rewrite Hw in Hc.
        rewrite (price_per_kg_nonpositive _ _ Hle) in Hc. congruence.
      * intros r Hr. rewrite Hr in Hc. eapply price_per_kg_present, Hc.
    + intros ->. eapply process_row_raise, E.
Qed.

(** ** The row loop *)

Lemma price_parse_failure (s : pystr) (w : float) :
  float_of_str s = None -> (0 <? w)%float = true ->
  compute_price_per_kg (Some s) (Some w) = Raise ValueError.
Proof.
  intros Hs Hw. unfold compute_price_per_kg, float_truthy, py_float.
  rewrite (FloatOrder.ltb_neqb _ _ Hw), Hw, Hs. reflexivity.
Qed.

(** What [load_rows] appends when it meets no exception: one record
    for every row that is not blank. *)
Lemma load_rows_no_exception (headers : list pystr)
    (product_idx price_idx : nat) (weight_idx : option nat)
    (file_path : pystr) (rows : list (list pystr)) :
  forall data data',
    load_rows headers product_idx price_idx weight_idx file_path rows data
    = (data', None) ->
    exists items,
      data' = data ++ items /\
      Forall2 (fun row x =>
                 process_row headers product_idx price_idx weight_idx file_path
                             (dict_reader_row headers row) = Ok x)
              (nonblank rows) items.
Proof.
  induction rows as [|row rows IH]; intros data data' H.
  - injection H as <-. exists []. rewrite app_nil_r. split; constructor.
  - destruct row as [|c row].
    + cbn [load_rows] in H. apply IH in H. exact H.
    + cbn [load_rows] in H.
      destruct (process_row _ _ _ _ _ _) as [x|e] eqn:E; [|discriminate].
      apply IH in H. destruct H as (items & -> & HF).
      exists (x :: items). rewrite <- app_assoc. split; [reflexivity|].
      cbn [nonblank filter]. constructor; assumption.
Qed.

(** C4, as the code has it: nothing is discarded for a missing
    product or price.  Whenever the rows of a file are read without an
    exception, every row that is not blank has become a record of the
    catalog, in order, whatever its product and price cells hold. *)
Theorem load_rows_keeps_every_row (headers : list pystr)
    (product_idx price_idx : nat) (weight_idx : option nat)
    (file_path : pystr) (rows : list (list pystr)) (data data' : list item) :
  load_rows headers product_idx price_idx weight_idx file_path rows data
  = (data', None) ->
  exists items,
    data' = data ++ items /\
    List.length items = List.length (nonblank rows) /\
    Forall2 (fun row x =>
               process_row headers product_idx price_idx weight_idx file_path
                           (dict_reader_row headers row) = Ok x)
            (nonblank rows) items.
Proof.
  intros H. apply load_rows_no_exception in H.
  destruct H as (items & -> & HF). exists items.
  repeat split; try assumption.
  symmetry. eapply Forall2_length, HF.
Qed.

Lemma load_rows_app (headers : list pystr)
    (product_idx price_idx : nat) (weight_idx : option nat)
    (file_path : pystr) (pre post : list (list pystr)) :
  forall data,
    load_rows headers product_idx price_idx weight_idx file_path (pre ++ post) data =
    match load_rows headers product_idx price_idx weight_idx file_path pre data with
    | (data1, None) =>
      load_rows headers product_idx price_idx weight_idx file_path post data1
    | (data1, Some e) => (data1, Some e)
    end.
Proof.
  induction pre as [|row pre IH]; intros data; [reflexivity|].
  destruct row as [|c row]; cbn [app load_rows]; [apply IH|].
  destruct (process_row _ _ _ _ _ _) as [x|e]; [apply IH|reflexivity].
Qed.

(** [load_rows] and [load_files] only ever append. *)
Lemma load_rows_extends (headers : list pystr)
    (product_idx price_idx : nat) (weight_idx : option nat)
    (file_path : pystr) (rows : list (list pystr)) :
  forall data,
    exists items,
      fst (load_rows headers product_idx price_idx weight_idx file_path rows data)
      = data ++ items.
Proof.
  induction rows as [|row rows IH]; intros data.
  - exists []. cbn. rewrite app_nil_r. reflexivity.
  - destruct row as [|c row]; cbn [load_rows]; [apply IH|].
    destruct (process_row _ _ _ _ _ _) as [x|e].
    + destruct (IH (data ++ [x])) as (items & ->).
      exists (x :: items). rewrite <- app_assoc. reflexivity.
    + exists []. cbn. rewrite app_nil_r. reflexivity.
Qed.

Lemma load_file_extends (data : list item) (f : dir_file) :
  exists items, fst (load_file data f) = data ++ items.
Proof.
  unfold load_file.
  assert (H0 : exists items : list item, data = data ++ items)
    by (exists []; rewrite app_nil_r; reflexivity).
  destruct (PyStr.endswith _ _); [|exact H0].
  destruct (csv_fieldnames (f_csv f)) as [headers|]; [|exact H0].
  destruct (_search_product_price_weight headers) as [[[p|] [c|]] w];
    try exact H0.
  apply load_rows_extends.
Qed.

Lemma load_files_extends (files : list dir_file) :
  forall data out,
    exists items, fst (load_files data out files) = data ++ items.
Proof.
  induction files as [|f files IH]; intros data out.
  - exists []. cbn. rewrite app_nil_r. reflexivity.
  - cbn [load_files]. destruct (load_file_extends data f) as (items1 & H1).
    destruct (load_file data f) as [data1 [e|]]; cbn [fst] in H1; subst data1.
    + destruct (IH (data ++ items1) (out ++ [(Path.join (f_root f) (f_name f), e)]))
        as (items & ->).
      exists (items1 ++ items). rewrite app_assoc. reflexivity.
    + destruct (IH (data ++ items1) out) as (items & ->).
      exists (items1 ++ items). rewrite app_assoc. reflexivity.
Qed.

(** C7: a file whose header row leaves the product role or the price
    role unassigned adds no record, and no exception is raised for it:
    the loop over the files goes on as if the file were not there. *)
Theorem load_file_roles_unassigned (data : list item) (f : dir_file)
    (headers : list pystr) :
  csv_fieldnames (f_csv f) = Some headers ->
  fst (fst (_search_product_price_weight headers)) = None \/
  snd (fst (_search_product_price_weight headers)) = None ->
  load_file data f = (data, None) /\
  forall out files, load_files data out (f :: files) = load_files data out files.
Proof.
  intros Hh Hnone.
  assert (H : load_file data f = (data, None)).
  { unfold load_file. destruct (PyStr.endswith _ _); [|reflexivity].
    rewrite Hh.
    destruct (_search_product_price_weight headers) as [[[p|] [c|]] w];
      cbn in Hnone; try reflexivity.
    destruct Hnone; discriminate. }
  split; [exact H|].
  intros out files. cbn [load_files]. rewrite H. reflexivity.
Qed.

(** C9: a file is not read atomically.  When a row raises after some
    rows of the file were read, the records of those rows stay in the
    catalog, the rows after it are not read, the exception is printed
    and the loop goes on with the next files, which only append. *)
Theorem load_file_row_error (data : list item) (out : log)
    (f : dir_file) (files : list dir_file) (headers : list pystr)
    (product_idx price_idx : nat) (weight_idx : option nat)
    (pre post : list (list pystr)) (bad : list pystr)
    (data1 : list item) (e : exn) :
  PyStr.endswith (py ".csv") (Path.join (f_root f) (f_name f)) = true ->
  csv_fieldnames (f_csv f) = Some headers ->
  _search_product_price_weight headers
  = (Some product_idx, Some price_idx, weight_idx) ->
  csv_rows (f_csv f) = pre ++ bad :: post ->
  load_rows headers product_idx price_idx weight_idx
            (Path.join (f_root f) (f_name f)) pre data = (data1, None) ->
  bad <> [] ->
  process_row headers product_idx price_idx weight_idx
              (Path.join (f_root f) (f_name f))
              (dict_reader_row headers bad) = Raise e ->
  (exists items,
      data1 = data ++ items /\
      List.length items = List.length (nonblank pre)) /\
  load_file data f = (data1, Some e) /\
  load_files data out (f :: files)
  = load_files data1 (out ++ [(Path.join (f_root f) (f_name f), e)]) files /\
  exists later, fst (load_files data out (f :: files)) = data1 ++ later.
Proof.
  intros Hcsv Hh Hs Hrows Hpre Hbad Hraise.
  assert (Hf : load_file data f = (data1, Some e)).
  { unfold load_file. rewrite Hcsv, Hh, Hs, Hrows, load_rows_app, Hpre.
    destruct bad as [|c bad]; [congruence|].
    cbn [load_rows]. rewrite Hraise. reflexivity. }
  assert (Hgo : load_files data out (f :: files)
                = load_files data1
                    (out ++ [(Path.join (f_root f) (f_name f), e)]) files).
  { cbn [load_files]. rewrite Hf. reflexivity. }
  split; [|split; [exact Hf|split; [exact Hgo|]]].
  - apply load_rows_no_exception in Hpre.
    destruct Hpre as (items & -> & HF). exists items. split; [reflexivity|].
    symmetry. eapply Forall2_length, HF.
  - rewrite Hgo. apply load_files_extends.
Qed.

(** ** The sorted view *)

Lemma sort_key_absent_or_zero (x : item) :
  absent_or_zero x = true -> sort_key x = infinity.
Proof.
  unfold absent_or_zero, sort_key. destruct (price_per_kg x) as [v|]; [|reflexivity].
  destruct (float_truthy v); [discriminate|reflexivity].
Qed.

(** The sorted view as the code computes it.  The sort key of a record
    is its price per kilogram when that is present and not zero, and
    [+inf] otherwise.  When no key is [nan], the sorted view is a
    permutation of the catalog in ascending order of the keys, records
    of equal key keep their insertion order, and a record that follows
    one whose key fell back to [+inf] has no key below [+inf]. *)
Lemma sorted_view_by_key (data : list item) :
  keys_ordered sort_key data ->
  Permutation data (sorted_view data) /\
  StronglySorted (key_le sort_key) (sorted_view data) /\
  (forall k,
      filter (fun x => (sort_key x =? k)%float) (sorted_view data) =
      filter (fun x => (sort_key x =? k)%float) data) /\
  (forall a b,
      before a b (sorted_view data) ->
      absent_or_zero a = true -> (sort_key b <? infinity)%float = false).
Proof.
  intros Hn. unfold sorted_view.
  pose proof (sorted_strongly _ sort_key data Hn) as Hs.
  repeat split.
  - apply sorted_perm.
  - exact Hs.
  - intros k. apply sorted_stable.
  - intros a b Hab Ha.
    pose proof (strongly_before _ sort_key a b _ Hs Hab) as Hle.
    unfold key_le in Hle. rewrite (sort_key_absent_or_zero a Ha) in Hle.
    exact Hle.
Qed.

(** ** The table rows *)

Lemma enumerate_nth {A : Type} (l : list A) :
  forall start i x,
    nth_error l i = Some x ->
    nth_error (enumerate start l) i = Some (start + i, x).
Proof.
  induction l as [|y l IH]; intros start [|i] x H; try discriminate.
  - cbn in *. injection H as ->. rewrite Nat.add_0_r. reflexivity.
  - rewrite enumerate_cons. cbn [nth_error] in *.
    rewrite (IH (S start) i x H). f_equal. f_equal. lia.
Qed.

Lemma enumerate_length {A : Type} (start : nat) (l : list A) :
  List.length (enumerate start l) = List.length l.
Proof.
  unfold enumerate. rewrite length_combine, length_seq. apply Nat.min_id.
Qed.

Lemma price_per_kg_formatted_na (x : item) :
  price_per_kg_formatted x = py "N/A" <-> absent_or_zero x = true.
Proof.
  unfold price_per_kg_formatted, absent_or_zero.
  destruct (price_per_kg x) as [v|]; [|split; reflexivity].
  destruct (float_truthy v); cbn [negb]; [|split; reflexivity].
  split; [|discriminate].
  intros H. apply Format.format_2f_not_na in H. contradiction.
Qed.

(** The table as the code computes it: one row for every record of the
    sorted view, in that order, numbered from 1, with the product, the
    price, the weight and the file of the record; the last cell is
    [N/A] when the conditional of line 151 takes its [else] branch and
    is otherwise the [.2f] rendering, which has exactly two decimal
    places when the number is finite. *)
Lemma export_rows_cells (data : list item) :
  List.length (export_rows data) = List.length data /\
  forall i x,
    nth_error (sorted_view data) i = Some x ->
    exists row,
      nth_error (export_rows data) i = Some row /\
      td_idx row = S i /\
      td_product row = str_of_cell (product x) /\
      td_price row = str_of_cell (price x) /\
      td_weight row = weight x /\
      td_file row = file x /\
      (td_price_per_kg row = py "N/A" <-> absent_or_zero x = true) /\
      (forall v, price_per_kg x = Some v -> float_truthy v = true ->
                 td_price_per_kg row = format_2f v /\
                 (is_finite v = true -> two_decimals (td_price_per_kg row) = true)).
Proof.
  unfold export_rows, sorted_view. split.
  - rewrite length_map, enumerate_length. apply sorted_length.
  - intros i x Hx. exists (table_row (S i, x)).
    split.
    + rewrite nth_error_map, (enumerate_nth _ 1 i x Hx). reflexivity.
    + cbn. repeat split; try apply price_per_kg_formatted_na.
      * unfold price_per_kg_formatted.
        match goal with Hv : price_per_kg x = Some _ |- _ => rewrite Hv end.
        match goal with Ht : float_truthy _ = true |- _ => rewrite Ht end.
        reflexivity.
      * unfold price_per_kg_formatted.
        match goal with Hv : price_per_kg x = Some _ |- _ => rewrite Hv end.
        match goal with Ht : float_truthy _ = true |- _ => rewrite Ht end.
        apply Format.format_2f_finite.
Qed.

Lemma absent_or_zero_nonzero (data : list item) (x : item) :
  prices_nonzero data -> In x data ->
  (absent_or_zero x = true <-> price_per_kg x = None).
Proof.
  intros Hz Hx. unfold prices_nonzero in Hz. rewrite Forall_forall in Hz.
  specialize (Hz x Hx). unfold absent_or_zero.
  destruct (price_per_kg x) as [v|]; [|split; reflexivity].
  rewrite (Hz v eq_refl). split; discriminate.
Qed.

(** X1: where no price per kilogram is zero or [nan], the sorted view is
    the one of the specification: a permutation of the catalog,
    ascending in the price per kilogram with [+inf] for an absent one,
    records of equal key in insertion order, and nothing below [+inf]
    after a record without price per kilogram. *)
Theorem sorted_view_nonzero (data : list item) :
  prices_nonzero data ->
  keys_ordered sort_key data ->
  Permutation data (sorted_view data) /\
  StronglySorted (key_le sort_key) (sorted_view data) /\
  (forall k,
      filter (fun x => (sort_key x =? k)%float) (sorted_view data) =
      filter (fun x => (sort_key x =? k)%float) data) /\
  (forall a b,
      before a b (sorted_view data) ->
      price_per_kg a = None -> (sort_key b <? infinity)%float = false).
Proof.
  intros Hz Hn.
  destruct (sorted_view_by_key data Hn) as (Hp & Hs & Hst & Hab).
  repeat split; try assumption.
  intros a b Hb Ha. apply (Hab a b Hb).
  unfold absent_or_zero. rewrite Ha. reflexivity.
Qed.

(** X2: where no price per kilogram is zero, the table is the one of the
    specification: one row for every record of the sorted view,
    numbered from 1, whose last cell is [N/A] exactly when the price
    per kilogram is absent and is otherwise its [.2f] rendering, with
    exactly two decimal places when the number is finite. *)
Theorem export_rows_nonzero (data : list item) :
  prices_nonzero data ->
  List.length (export_rows data) = List.length data /\
  forall i x,
    nth_error (sorted_view data) i = Some x ->
    exists row,
      nth_error (export_rows data) i = Some row /\
      td_idx row = S i /\
      td_product row = str_of_cell (product x) /\
      td_price row = str_of_cell (price x) /\
      td_weight row = weight x /\
      td_file row = file x /\
      (td_price_per_kg row = py "N/A" <-> price_per_kg x = None) /\
      (forall v, price_per_kg x = Some v ->
                 td_price_per_kg row = format_2f v /\
                 (is_finite v = true -> two_decimals (td_price_per_kg row) = true)).
Proof.
  intros Hz. destruct (export_rows_cells data) as [Hlen Hrows].
  split; [exact Hlen|].
  intros i x Hx. destruct (Hrows i x Hx) as (row & H1 & H2 & H3 & H4 & H5 & H6 & H7 & H8).
  assert (Hin : In x data).
  { eapply Permutation_in; [apply Permutation_sym, sorted_perm|].
    eapply nth_error_In, Hx. }
  exists row. repeat split; try assumption.
  - intros Hna. apply (absent_or_zero_nonzero data x Hz Hin), H7, Hna.
  - intros Hnone. apply H7, (absent_or_zero_nonzero data x Hz Hin), Hnone.
  - apply (H8 v); [assumption|].
    unfold prices_nonzero in Hz. rewrite Forall_forall in Hz. apply (Hz x Hin v).
    assumption.
  - apply (H8 v); [assumption|].
    unfold prices_nonzero in Hz. rewrite Forall_forall in Hz. apply (Hz x Hin v).
    assumption.
Qed.

(** ** [find_text] *)

Lemma startswith_refl (s : pystr) : PyStr.startswith s s = true.
Proof.
  induction s as [|c s IH]; [reflexivity|].
  cbn. rewrite N.eqb_refl. exact IH.
Qed.

Lemma contains_refl (s : pystr) : PyStr.contains s s = true.
Proof.
  destruct s as [|c s]; [reflexivity|].
  cbn [PyStr.contains]. rewrite startswith_refl. reflexivity.
Qed.

Lemma find_cond_string (text : pystr) (x : item) :
  has_product x = true -> find_cond text x = Ok (find_keeps text x).
Proof.
  unfold has_product, find_cond, find_keeps.
  destruct (product x) as [p|]; [|discriminate]. intros _. cbn [str_of_cell].
  destruct (PyStr.contains (str_lower text) (str_lower p)); reflexivity.
Qed.

Lemma find_results_strings (text : pystr) (data : list item) :
  forallb has_product data = true ->
  find_results text data = Ok (filter (find_keeps text) data).
Proof.
  induction data as [|x data IH]; intros H; [reflexivity|].
  cbn [forallb] in H. apply andb_prop in H. destruct H as [Hx Hd].
  cbn [find_results filter]. rewrite (find_cond_string text x Hx), (IH Hd).
  cbn [bind]. reflexivity.
Qed.

Lemma find_cond_absent (text : pystr) (x : item) :
  product x = None ->
  PyStr.contains (str_lower text) (str_lower (py "None")) = true ->
  find_cond text x = Raise AttributeError.
Proof.
  intros Hp Hc. unfold find_cond. rewrite Hp. cbn [str_of_cell].
  rewrite Hc. reflexivity.
Qed.

Lemma find_cond_raise (text : pystr) (x : item) (e : exn) :
  find_cond text x = Raise e -> e = AttributeError /\ product x = None.
Proof.
  unfold find_cond.
  destruct (PyStr.contains _ _); [|discriminate].
  destruct (product x); [discriminate|].
  intros [= <-]. split; reflexivity.
Qed.

(** [find_text] raises exactly when the text matches the coerced form
    of a product that is [None]. *)
Lemma find_results_raise (text : pystr) (data : list item) :
  (exists e, find_results text data = Raise e) <->
  (PyStr.contains (str_lower text) (str_lower (py "None")) = true /\
   existsb (fun x => negb (has_product x)) data = true).
Proof.
  induction data as [|x data IH].
  - cbn. split; [intros [e H]; discriminate|intros [_ H]; discriminate].
  - cbn [find_results existsb]. split.
    + intros [e H]. destruct (find_cond text x) as [keep|e'] eqn:E.
      * cbn [bind] in H.
        destruct (find_results text data) as [r|e''] eqn:E'; [discriminate|].
        destruct IH as [IH _]. destruct (IH (ex_intro _ e'' eq_refl)) as [Hc Hd].
        split; [exact Hc|]. rewrite Hd. apply orb_true_r.
      * unfold find_cond in E.
        destruct (PyStr.contains _ _) eqn:Hc in E; [|discriminate].
        unfold has_product. destruct (product x); [discriminate|].
        split; [exact Hc|reflexivity].
    + intros [Hc Hd]. unfold has_product in Hd at 1.
      destruct (product x) as [p|] eqn:Hp.
      * cbn [negb orb] in Hd.
        destruct IH as [_ IH]. destruct (IH (conj Hc Hd)) as [e He].
        rewrite He. destruct (find_cond text x); cbn [bind]; eexists; reflexivity.
      * rewrite (find_cond_absent text x Hp Hc). eexists. reflexivity.
Qed.

(** C6, as the code has it: over a catalog in which every product is a
    string (and no sort key is [nan]), [find_text] returns exactly the
    records whose lower-cased product contains the lower-cased query
    and does not contain the keyword - the exclusion is made on the
    lower-cased product, so it does not depend on case either - as the
    subsequence of the sorted view in its order; with the empty query
    these are all the records that are not excluded. *)
Theorem find_text_filters_sorted_view (data : list item) (text : pystr) :
  forallb has_product data = true ->
  keys_ordered sort_key data ->
  find_text data text = Ok (filter (find_keeps text) (sorted_view data)) /\
  (str_lower [] = [] -> text = [] ->
   find_text data text =
   Ok (filter (fun x =>
                 negb (PyStr.contains (py "наименование")
                         (str_lower (str_of_cell (product x)))))
              (sorted_view data))).
Proof.
  intros Hp Hn.
  assert (H : find_text data text = Ok (filter (find_keeps text) (sorted_view data))).
  { unfold find_text, sorted_view. rewrite (find_results_strings text data Hp).
    cbn [bind]. rewrite sorted_filter by exact Hn. reflexivity. }
  split; [exact H|].
  intros Hl ->. rewrite H. f_equal. apply filter_ext.
  intros x. unfold find_keeps. rewrite Hl.
  destruct (str_lower (str_of_cell (product x))); reflexivity.
Qed.

End Properties.

(* ================================================================== *)
(** * The program on the sample price lists *)

Local Open Scope string_scope.

(** ** The scenarios of the specification *)

(** Scenario 6: the apple, 50.00 per kilogram, then the pear without
    weight. *)
Example scenario_price1 :
  ingest [Samples.price1] =
  ([record "price1.csv" "Яблоко" "100" (Some 2%float) (Some 50%float);
    record "price1.csv" "Груша" "150" None None], []).
Proof. vm_compute. reflexivity. Qed.

(** Scenario 8: the query is matched without regard to case. *)
Example scenario_find_pear :
  find_text (catalog [Samples.price1]) (py "ГРУША") =
  Ok [record "price1.csv" "Груша" "150" None None].
Proof. vm_compute. reflexivity. Qed.

(** Scenario 9: the weight 0 gives a record without price per
    kilogram. *)
Example scenario_zero_weight :
  ingest [Samples.zero_weight] =
  ([record "price_weight.csv" "Соль" "30" (Some 0%float) None], []).
Proof. vm_compute. reflexivity. Qed.

(** Files that are not price lists, or not CSV files, are passed over. *)
Example scenario_other_files :
  ingest [Samples.file "stock.csv" ["Товар"; "Цена"] [["Чай"; "10"]];
          Samples.file "price.txt" ["Товар"; "Цена"] [["Чай"; "10"]];
          Samples.file "PRICE_2.csv" ["Товар"; "Цена"] [["Чай"; "10"]]] =
  ([record "PRICE_2.csv" "Чай" "10" None None], []).
Proof. vm_compute. reflexivity. Qed.

(** An empty file has no field names: the exception is caught. *)
Example scenario_empty_file :
  ingest [{| f_root := py "prices"; f_name := py "price_none.csv";
             f_csv := {| csv_fieldnames := None; csv_rows := [] |} |}] =
  ([], [(py "prices/price_none.csv", TypeError)]).
Proof. vm_compute. reflexivity. Qed.

(** ** The header classifier *)

(** C1 does not hold as stated: with the headers Товар, Цена, Вес,
    Название the product role goes to the fourth column, not to the
    first column that carries a product keyword. *)
Lemma search_not_first_match :
  _search_product_price_weight Samples.two_product_headers
  = (Some 3, Some 1, Some 2) /\
  ~ first_match product_keywords Samples.two_product_headers
      (fst (fst (_search_product_price_weight Samples.two_product_headers))).
Proof.
  split; [vm_compute; reflexivity|].
  intros [_ H]. specialize (H 0 (py "Товар")).
  vm_compute in H. specialize (H (le_S _ _ (le_S _ _ (le_n 1))) eq_refl).
  discriminate H.
Qed.

(** ** Ingestion *)

(** C2 at a failing input: the price [abc] of the second row, whose
    weight is 2, raises [ValueError]; no record is made for that row,
    the third row is not read, and the file is reported. *)
Theorem bad_price_aborts_file :
  ingest [Samples.bad_price] =
  ([record "price_bad.csv" "Сахар" "50" (Some 1%float) (Some 50%float)],
   [(py "prices/price_bad.csv", ValueError)]).
Proof. vm_compute. reflexivity. Qed.

(** C4 does not hold as stated: the row with the empty product and the
    row with the empty price are both in the catalog. *)
Lemma empty_cells_are_kept :
  catalog [Samples.empty_cells] =
  [record "price_empty.csv" "" "100" (Some 2%float) (Some 50%float);
   record "price_empty.csv" "Мёд" "" None None].
Proof. vm_compute. reflexivity. Qed.

(** The rows of the sample with empty cells are read without an
    exception, so the two of them are records. *)
Lemma load_rows_keeps_every_row_witness :
  exists items,
    [record "price_empty.csv" "" "100" (Some 2%float) (Some 50%float);
     record "price_empty.csv" "Мёд" "" None None] = ([] ++ items)%list /\
    List.length items = 2.
Proof.
  destruct (load_rows_keeps_every_row
              (map PyStr.of_string ["Товар"; "Цена"; "Вес"]) 0 1 (Some 2)
              (py "prices/price_empty.csv")
              (csv_rows (f_csv Samples.empty_cells)) []
              [record "price_empty.csv" "" "100" (Some 2%float) (Some 50%float);
               record "price_empty.csv" "Мёд" "" None None])
    as (items & H1 & H2 & _).
  - vm_compute. reflexivity.
  - exists items. split; [exact H1|exact H2].
Defined.

(** The sample without role headers adds nothing. *)
Lemma load_file_roles_unassigned_witness :
  load_file [] Samples.no_roles
  = ([], None).
Proof.
  apply (load_file_roles_unassigned [] Samples.no_roles
           (map PyStr.of_string ["Код"; "Количество"])).
  - vm_compute. reflexivity.
  - left. vm_compute. reflexivity.
Defined.

(** The row of scenario 9, whose weight is 0, becomes a record without
    price per kilogram. *)
Lemma price_per_kg_needs_positive_weight_witness :
  process_row (map PyStr.of_string ["Товар"; "Цена"; "Вес"]) 0 1 (Some 2)
              (py "prices/price_weight.csv")
              (dict_reader_row (map PyStr.of_string ["Товар"; "Цена"; "Вес"])
                               (map PyStr.of_string ["Соль"; "30"; "0"])) =
  Ok (record "price_weight.csv" "Соль" "30" (Some 0%float) None).
Proof.
  refine (proj1 price_per_kg_needs_positive_weight
            (map PyStr.of_string ["Товар"; "Цена"; "Вес"]) 0 1 (Some 2)
            (py "prices/price_weight.csv")
            (map PyStr.of_string ["Соль"; "30"; "0"]) 0%float _ _ _).
  - vm_compute. reflexivity.
  - vm_compute. reflexivity.
  - vm_compute. reflexivity.
Defined.

(** The sample with the price [abc]: one row read, the second raises. *)
Lemma load_file_row_error_witness :
  load_file [] Samples.bad_price
  = ([record "price_bad.csv" "Сахар" "50" (Some 1%float) (Some 50%float)],
     Some ValueError).
Proof.
  apply (load_file_row_error [] [] Samples.bad_price []
           (map PyStr.of_string ["Товар"; "Цена"; "Вес"]) 0 1 (Some 2)
           [map PyStr.of_string ["Сахар"; "50"; "1"]]
           [map PyStr.of_string ["Кофе"; "100"; "1"]]
           (map PyStr.of_string ["Чай"; "abc"; "2"])
           [record "price_bad.csv" "Сахар" "50" (Some 1%float) (Some 50%float)]
           ValueError).
  - vm_compute. reflexivity.
  - vm_compute. reflexivity.
  - vm_compute. reflexivity.
  - vm_compute. reflexivity.
  - vm_compute. reflexivity.
  - discriminate.
  - vm_compute. reflexivity.
Defined.

(** ** The sorted view and the table *)

(** C3 at a failing input: the record whose price per kilogram is
    present and is 0.0 is sorted with the key [+inf]; it stands last,
    after the record without price per kilogram and after 50.0. *)
Theorem zero_price_sorted_last :
  map (fun x => (product x, price_per_kg x))
      (sorted_view (catalog [Samples.zero_price])) =
  [(Some (py "Яблоко"), Some 50%float);
   (Some (py "Пакет"), None);
   (Some (py "Пробник"), Some 0%float)].
Proof. vm_compute. reflexivity. Qed.

(** C5 at a failing input: the price per kilogram 0.0 is present and
    is rendered as [N/A], not as [0.00]. *)
Theorem zero_price_rendered_na :
  map (fun x => (product x, price_per_kg x))
      (sorted_view (catalog [Samples.zero_price])) =
  [(Some (py "Яблоко"), Some 50%float);
   (Some (py "Пакет"), None);
   (Some (py "Пробник"), Some 0%float)] /\
  map (fun row => (td_idx row, td_product row, td_price_per_kg row))
      (export_rows (catalog [Samples.zero_price])) =
  [(1, py "Яблоко", py "50.00");
   (2, py "Пакет", py "N/A");
   (3, py "Пробник", py "N/A")].
Proof. split; vm_compute; reflexivity. Qed.

(** The catalog of scenario 6 has no zero and no [nan]. *)
Lemma sorted_view_nonzero_witness :
  Permutation (catalog [Samples.price1]) (sorted_view (catalog [Samples.price1])).
Proof.
  refine (proj1 (sorted_view_nonzero (catalog [Samples.price1]) _ _)).
  - vm_compute. repeat constructor; intros v Hv; try discriminate Hv.
    injection Hv as <-. reflexivity.
  - vm_compute. repeat constructor.
Defined.

(** The table of scenario 6 has two rows. *)
Lemma export_rows_nonzero_witness :
  List.length (export_rows (catalog [Samples.price1])) =
  List.length (catalog [Samples.price1]).
Proof.
  refine (proj1 (export_rows_nonzero (catalog [Samples.price1]) _)).
  vm_compute. repeat constructor; intros v Hv; try discriminate Hv.
  injection Hv as <-. reflexivity.
Defined.

(** ** [find_text] *)

(** C6 does not hold as stated.  The product Наименование does not
    contain the keyword as it is written, yet the empty query does not
    return it; and on a catalog with a product that is [None] the
    empty query returns nothing at all: it raises. *)
Lemma find_text_not_as_specified :
  (find_text (catalog [Samples.header_as_data]) []
   = Ok [record "price_header.csv" "Груша" "150" (Some 3%float) (Some 50%float)] /\
   find_as_specified [] (catalog [Samples.header_as_data])
   = [record "price_header.csv" "Груша" "150" (Some 3%float) (Some 50%float);
      record "price_header.csv" "Наименование" "Цена" None None]) /\
  find_text (catalog [Samples.short_row]) []
  = Raise AttributeError.
Proof. repeat split; vm_compute; reflexivity. Qed.

(** A query on the sample in which the header line occurs again. *)
Lemma find_text_filters_sorted_view_witness :
  find_text (catalog [Samples.header_as_data]) (py "гру")
  = Ok (filter (find_keeps (py "гру"))
               (sorted_view (catalog [Samples.header_as_data]))).
Proof.
  refine (proj1 (find_text_filters_sorted_view (catalog [Samples.header_as_data]) (py "гру") _ _)).
  - vm_compute. reflexivity.
  - vm_compute. repeat constructor.
Defined.

(** C10: [find_text] returns a result on every catalog whose products
    are all strings, and raises [AttributeError] on every catalog that
    holds a product [None] when the query matches the text [None];
    such a catalog comes from a row that is shorter than its header. *)
Theorem find_text_raises_on_absent_product :
  (forall (builtin : PyBuiltin) data text,
      forallb has_product data = true ->
      exists results, find_text data text = Ok results) /\
  (forall (builtin : PyBuiltin) data text,
      existsb (fun x => negb (has_product x)) data = true ->
      PyStr.contains (str_lower text) (str_lower (py "None")) = true ->
      find_text data text = Raise AttributeError) /\
  (forall (builtin : PyBuiltin) data,
      existsb (fun x => negb (has_product x)) data = true ->
      find_text data (py "None") = Raise AttributeError) /\
  (catalog [Samples.short_row] =
   [{| product := None; price := Some (py "100"); weight := Some 2%float;
       file := py "price_short.csv"; price_per_kg := Some 50%float |}] /\
   find_text (catalog [Samples.short_row]) (py "no")
   = Raise AttributeError).
Proof.
  assert (Hraise : forall (builtin : PyBuiltin) data text,
             existsb (fun x => negb (has_product x)) data = true ->
             PyStr.contains (str_lower text) (str_lower (py "None")) = true ->
             find_text data text = Raise AttributeError);
    [|split; [|split; [exact Hraise|split]]].
  - intros builtin data text Hd Hc. unfold find_text.
    destruct (proj2 (find_results_raise text data) (conj Hc Hd))
      as [e He].
    rewrite He. cbn [bind].
    assert (e = AttributeError) as ->; [|reflexivity].
    clear Hd Hc. revert e He. induction data as [|x data IH]; intros e He.
    + discriminate He.
    + cbn [find_results] in He.
      destruct (find_cond text x) as [keep|e'] eqn:E.
      * cbn [bind] in He.
        destruct (find_results text data) as [r|e'']; [discriminate|].
        cbn [bind] in He. injection He as <-. apply IH. reflexivity.
      * cbn [bind] in He. injection He as <-.
        apply (find_cond_raise text x), E.
  - intros builtin data text H. unfold find_text.
    rewrite (find_results_strings text data H). cbn [bind].
    eexists. reflexivity.
  - intros builtin data Hd. apply (Hraise builtin data (py "None") Hd).
    apply contains_refl.
  - split; vm_compute; reflexivity.
Qed.


(* ================================================================== *)
(** * Further properties of the program *)

Local Close Scope string_scope.

(** ** Substrings *)

Lemma startswith_spec (p s : pystr) :
  PyStr.startswith p s = true <-> exists post, s = p ++ post.
Proof.
  revert s. induction p as [|x p IH]; intros s.
  - split; [intros _; exists s; reflexivity|reflexivity].
  - destruct s as [|y s]; cbn [PyStr.startswith].
    + split; [discriminate|intros [post H]; discriminate H].
    + rewrite andb_true_iff, N.eqb_eq, IH. split.
      * intros [-> [post ->]]. exists post. reflexivity.
      * intros [post [= -> ->]]. split; [reflexivity|exists post; reflexivity].
Qed.

Lemma contains_spec (sub s : pystr) :
  PyStr.contains sub s = true <-> exists pre post, s = pre ++ sub ++ post.
Proof.
  induction s as [|y s IH]; cbn [PyStr.contains].
  - rewrite orb_false_r, startswith_spec. split.
    + intros [post H]. exists [], post. exact H.
    + intros (pre & post & H). destruct pre as [|c pre]; [|discriminate H].
      exists post. exact H.
  - rewrite orb_true_iff, startswith_spec, IH. split.
    + intros [[post H]|(pre & post & H)].
      * exists [], post. exact H.
      * exists (y :: pre), post. cbn. rewrite H. reflexivity.
    + intros (pre & post & H). destruct pre as [|c pre].
      * left. exists post. exact H.
      * right. injection H as -> ->. exists pre, post. reflexivity.
Qed.

Lemma contains_trans (a b c : pystr) :
  PyStr.contains a b = true -> PyStr.contains b c = true ->
  PyStr.contains a c = true.
Proof.
  rewrite !contains_spec. intros (p1 & q1 & ->) (p2 & q2 & ->).
  exists (p2 ++ p1), (q1 ++ q2). rewrite <- !app_assoc. reflexivity.
Qed.

Lemma contains_middle (sub pre post : pystr) :
  PyStr.contains sub (pre ++ sub ++ post) = true.
Proof. apply contains_spec. exists pre, post. reflexivity. Qed.

Section FurtherProperties.
Context {builtin : PyBuiltin} {text : PyText}.

(** ** The header classifier *)

(** X3: a header carries a role exactly when its lower-cased text has
    one of the keywords of the role somewhere inside it. *)
Theorem header_matches_substring (keywords : list pystr) (header : pystr) :
  header_matches keywords header = true <->
  exists keyword pre post,
    In keyword keywords /\ str_lower header = pre ++ keyword ++ post.
Proof.
  unfold header_matches, any_keyword_in. rewrite existsb_exists. split.
  - intros (k & Hin & Hc). apply contains_spec in Hc.
    destruct Hc as (pre & post & H). exists k, pre, post. split; assumption.
  - intros (k & pre & post & Hin & H). exists k. split; [exact Hin|].
    rewrite H. apply contains_middle.
Qed.

Lemma last_index_lower (keywords : list pystr) (headers : list pystr) :
  forall headers' start init,
    map str_lower headers = map str_lower headers' ->
    last_index keywords start headers init =
    last_index keywords start headers' init.
Proof.
  induction headers as [|h headers IH]; intros [|h' headers'] start init H;
    try discriminate H; [reflexivity|].
  cbn [map] in H. injection H as Hh Ht.
  unfold last_index. rewrite !enumerate_cons. cbn [fold_left fst snd].
  unfold header_matches. rewrite Hh.
  apply (IH headers' (S start)). exact Ht.
Qed.

(** X4: the classifier sees the headers through [lower] only: two
    header rows that differ in case alone get the same columns. *)
Theorem search_case_insensitive (headers headers' : list pystr) :
  map str_lower headers = map str_lower headers' ->
  _search_product_price_weight headers = _search_product_price_weight headers'.
Proof.
  intros H. unfold _search_product_price_weight. rewrite !search_roles.
  rewrite !(last_index_lower _ headers headers' 0 None H). reflexivity.
Qed.

(** ** The rows of a file *)

(** Blank lines of a file add no record and do not stop the
    reading: the file is read as if they were not there. *)
Lemma load_rows_skips_blank (headers : list pystr)
    (product_idx price_idx : nat) (weight_idx : option nat)
    (file_path : pystr) (rows : list (list pystr)) :
  forall data,
    load_rows headers product_idx price_idx weight_idx file_path rows data =
    load_rows headers product_idx price_idx weight_idx file_path
              (nonblank rows) data.
Proof.
  induction rows as [|row rows IH]; intros data; [reflexivity|].
  destruct row as [|c row]; cbn [nonblank filter load_rows]; [apply IH|].
  fold (nonblank rows).
  destruct (process_row _ _ _ _ _ _); [apply IH|reflexivity].
Qed.

Lemma reader_cells_nodup (headers : list pystr)
    (product_idx price_idx : nat) (weight_idx : option nat)
    (row : list pystr) :
  _search_product_price_weight headers
  = (Some product_idx, Some price_idx, weight_idx) ->
  NoDup headers ->
  reader_cell headers row product_idx = nth_error row product_idx /\
  reader_cell headers row price_idx = nth_error row price_idx /\
  reader_weight headers row weight_idx =
  match weight_idx with
  | Some wi => nth_error row wi
  | None => None
  end.
Proof.
  intros Hs Hnd. unfold _search_product_price_weight in Hs.
  rewrite search_roles in Hs. injection Hs as Ep Ec Ew.
  pose proof (last_index_last_match product_keywords headers) as Hp.
  pose proof (last_index_last_match price_keywords headers) as Hc.
  pose proof (last_index_last_match weight_keywords headers) as Hw.
  rewrite Ep in Hp. rewrite Ec in Hc. rewrite Ew in Hw.
  apply last_match_in_range in Hp, Hc.
  repeat split; try (apply reader_cell_nodup; assumption).
  unfold reader_weight. destruct weight_idx as [wi|]; [|reflexivity].
  apply last_match_in_range in Hw. apply reader_cell_nodup; assumption.
Qed.

(** X5: when no header name occurs twice, the record of a row holds
    the fields of the row at the columns of the roles, [None] where
    the row is too short; a weight column is optional. *)
Theorem process_row_fields (headers : list pystr)
    (product_idx price_idx : nat) (weight_idx : option nat)
    (file_path : pystr) (row : list pystr) :
  _search_product_price_weight headers
  = (Some product_idx, Some price_idx, weight_idx) ->
  NoDup headers ->
  process_row headers product_idx price_idx weight_idx file_path
              (dict_reader_row headers row) =
  (price_per_kg <-
     compute_price_per_kg (nth_error row price_idx)
       (parse_weight match weight_idx with
                     | Some wi => nth_error row wi
                     | None => None
                     end) ;;
   Ok {| product := nth_error row product_idx;
         price := nth_error row price_idx;
         weight := parse_weight match weight_idx with
                                | Some wi => nth_error row wi
                                | None => None
                                end;
         file := Path.basename file_path;
         price_per_kg := price_per_kg |}).
Proof.
  intros Hs Hnd. rewrite (process_row_of_reader _ _ _ _ file_path row Hs).
  destruct (reader_cells_nodup _ _ _ _ row Hs Hnd) as (-> & -> & ->).
  reflexivity.
Qed.

(** X6: a row that stops before its price column, in a file without
    repeated header, is kept with the price [None] when it has no
    positive weight, and raises [TypeError] when it has one. *)
Theorem process_row_missing_price (headers : list pystr)
    (product_idx price_idx : nat) (weight_idx : option nat)
    (file_path : pystr) (row : list pystr) :
  _search_product_price_weight headers
  = (Some product_idx, Some price_idx, weight_idx) ->
  NoDup headers ->
  List.length row <= price_idx ->
  match parse_weight match weight_idx with
                     | Some wi => nth_error row wi
                     | None => None
                     end with
  | Some w =>
    if (0 <? w)%float then
      process_row headers product_idx price_idx weight_idx file_path
                  (dict_reader_row headers row) = Raise TypeError
    else
      process_row headers product_idx price_idx weight_idx file_path
                  (dict_reader_row headers row) =
      Ok {| product := nth_error row product_idx; price := None;
            weight := Some w; file := Path.basename file_path;
            price_per_kg := None |}
  | None =>
    process_row headers product_idx price_idx weight_idx file_path
                (dict_reader_row headers row) =
    Ok {| product := nth_error row product_idx; price := None;
          weight := None; file := Path.basename file_path;
          price_per_kg := None |}
  end.
Proof.
  intros Hs Hnd Hlen. rewrite (process_row_of_reader _ _ _ _ file_path row Hs).
  destruct (reader_cells_nodup _ _ _ _ row Hs Hnd) as (-> & -> & ->).
  apply nth_error_None in Hlen. rewrite Hlen.
  destruct (parse_weight _) as [w|]; [|reflexivity].
  unfold compute_price_per_kg.
  destruct (0 <? w)%float eqn:Hw.
  - unfold float_truthy. rewrite (FloatOrder.ltb_neqb _ _ Hw). reflexivity.
  - destruct (float_truthy w); reflexivity.
Qed.

(** ** What [load_prices] keeps and adds *)

Lemma price_per_kg_some (price : option pystr) (weight_kg : option float)
    (r : float) :
  compute_price_per_kg price weight_kg = Ok (Some r) ->
  exists w s p,
    weight_kg = Some w /\ (0 <? w)%float = true /\
    price = Some s /\ float_of_str s = Some p /\ r = (p / w)%float.
Proof.
  unfold compute_price_per_kg.
  destruct weight_kg as [w|]; [|discriminate].
  destruct (float_truthy w); [|discriminate].
  destruct (0 <? w)%float eqn:Hw; [|discriminate].
  unfold py_float. destruct price as [s|]; [|discriminate].
  destruct (float_of_str s) as [p|] eqn:Hp; [|discriminate].
  cbn [bind]. unfold float_truediv. rewrite (FloatOrder.ltb_neqb _ _ Hw).
  cbn [bind]. intros [= <-]. exists w, s, p. repeat split; assumption.
Qed.

Lemma process_row_justified (headers : list pystr)
    (product_idx price_idx : nat) (weight_idx : option nat)
    (file_path : pystr) (row : Dict.t (option pystr)) (x : item) :
  process_row headers product_idx price_idx weight_idx file_path row = Ok x ->
  price_per_kg_justified x.
Proof.
  intros H. apply process_row_ok in H. destruct H as (wc & _ & Hc).
  unfold price_per_kg_justified. destruct (price_per_kg x) as [r|]; [|exact I].
  apply price_per_kg_some, Hc.
Qed.

Lemma process_row_file (headers : list pystr)
    (product_idx price_idx : nat) (weight_idx : option nat)
    (file_path : pystr) (row : Dict.t (option pystr)) (x : item) :
  process_row headers product_idx price_idx weight_idx file_path row = Ok x ->
  file x = Path.basename file_path.
Proof.
  unfold process_row.
  destruct (list_getitem headers product_idx) as [ph|]; [|discriminate].
  cbn [bind]. destruct (Dict.getitem ph row) as [product|]; [|discriminate].
  cbn [bind]. destruct (list_getitem headers price_idx) as [ch|]; [|discriminate].
  cbn [bind]. destruct (Dict.getitem ch row) as [price|]; [|discriminate].
  cbn [bind].
  destruct (match weight_idx with
            | Some wi => _
            | None => Ok None
            end) as [weight_cell|]; [|discriminate].
  cbn [bind].
  destruct (compute_price_per_kg price (parse_weight weight_cell));
    [|discriminate].
  cbn [bind]. intros [= <-]. reflexivity.
Qed.

(** Every record that a file adds was made by [process_row] with the
    path of that file. *)
Lemma load_rows_items (P : item -> Prop) (headers : list pystr)
    (product_idx price_idx : nat) (weight_idx : option nat)
    (file_path : pystr) (rows : list (list pystr)) :
  (forall row x,
      process_row headers product_idx price_idx weight_idx file_path row = Ok x ->
      P x) ->
  forall data,
    exists items,
      fst (load_rows headers product_idx price_idx weight_idx file_path rows data)
      = data ++ items /\ Forall P items.
Proof.
  intros HP. induction rows as [|row rows IH]; intros data.
  - exists []. rewrite app_nil_r. split; [reflexivity|constructor].
  - destruct row as [|c row]; cbn [load_rows]; [apply IH|].
    destruct (process_row _ _ _ _ _ _) as [x|e] eqn:E.
    + destruct (IH (data ++ [x])) as (items & -> & HF).
      exists (x :: items). rewrite <- app_assoc. split; [reflexivity|].
      constructor; [eapply HP, E|exact HF].
    + exists []. cbn. rewrite app_nil_r. split; [reflexivity|constructor].
Qed.

Lemma load_file_items (P : item -> Prop) (data : list item) (f : dir_file) :
  (PyStr.endswith (py ".csv") (Path.join (f_root f) (f_name f)) = true ->
   forall headers product_idx price_idx weight_idx row x,
     process_row headers product_idx price_idx weight_idx
                 (Path.join (f_root f) (f_name f)) row = Ok x -> P x) ->
  exists items, fst (load_file data f) = data ++ items /\ Forall P items.
Proof.
  intros HP. unfold load_file.
  assert (H0 : exists items : list item,
             data = data ++ items /\ Forall P items)
    by (exists []; rewrite app_nil_r; split; [reflexivity|constructor]).
  destruct (PyStr.endswith _ _); [|exact H0].
  destruct (csv_fieldnames (f_csv f)) as [headers|]; [|exact H0].
  destruct (_search_product_price_weight headers) as [[[p|] [c|]] w];
    try exact H0.
  apply load_rows_items. intros row x. apply HP. reflexivity.
Qed.

Lemma load_files_items (P : item -> Prop) (files : list dir_file) :
  (forall f,
      In f files ->
      PyStr.endswith (py ".csv") (Path.join (f_root f) (f_name f)) = true ->
      forall headers product_idx price_idx weight_idx row x,
        process_row headers product_idx price_idx weight_idx
                    (Path.join (f_root f) (f_name f)) row = Ok x -> P x) ->
  forall data out,
    exists items,
      fst (load_files data out files) = data ++ items /\ Forall P items.
Proof.
  induction files as [|f files IH]; intros HP data out.
  - exists []. cbn. rewrite app_nil_r. split; [reflexivity|constructor].
  - cbn [load_files].
    destruct (load_file_items P data f (HP f (or_introl eq_refl)))
      as (items1 & H1 & HF1).
    assert (HP' : forall g,
               In g files ->
               PyStr.endswith (py ".csv") (Path.join (f_root g) (f_name g)) = true ->
               forall headers product_idx price_idx weight_idx row x,
                 process_row headers product_idx price_idx weight_idx
                             (Path.join (f_root g) (f_name g)) row = Ok x -> P x)
      by (intros g Hg; apply HP; right; exact Hg).
    destruct (load_file data f) as [data1 [e|]]; cbn [fst] in H1; subst data1.
    + destruct (IH HP' (data ++ items1)
                   (out ++ [(Path.join (f_root f) (f_name f), e)]))
        as (items & -> & HF).
      exists (items1 ++ items). rewrite app_assoc. split; [reflexivity|].
      apply Forall_app. split; assumption.
    + destruct (IH HP' (data ++ items1) out) as (items & -> & HF).
      exists (items1 ++ items). rewrite app_assoc. split; [reflexivity|].
      apply Forall_app. split; assumption.
Qed.

Lemma load_prices_fst (data : list item) (walk : list dir_file) :
  fst (load_prices data walk) =
  sorted sort_key (fst (load_files data [] (valid_files walk))).
Proof.
  unfold load_prices. destruct (load_files data [] (valid_files walk)).
  reflexivity.
Qed.

(** X7: [load_prices] keeps this invariant of the catalog: a price per
    kilogram that is present is the float of the price cell divided by
    a weight that is present and positive. *)
Theorem load_prices_record_invariant (data : list item) (walk : list dir_file) :
  Forall price_per_kg_justified data ->
  Forall price_per_kg_justified (fst (load_prices data walk)).
Proof.
  intros Hd. rewrite load_prices_fst.
  eapply Permutation_Forall; [apply sorted_perm|].
  destruct (load_files_items price_per_kg_justified (valid_files walk))
    with (data := data) (out := @nil (pystr * exn)) as (items & -> & HF).
  - intros f _ _ headers p c w row x. apply process_row_justified.
  - apply Forall_app. split; assumption.
Qed.

Lemma basename_plain (name : pystr) :
  plain_name name = true -> Path.basename name = name.
Proof.
  unfold plain_name. destruct name as [|c name]; [reflexivity|].
  cbn [existsb Path.basename]. rewrite negb_true_iff, orb_false_iff.
  intros [Hc Hn]. rewrite Hn. rewrite N.eqb_sym in Hc. rewrite Hc. reflexivity.
Qed.

Lemma basename_after_sep (a name : pystr) :
  plain_name name = true -> Path.basename (a ++ Path.sep :: name) = name.
Proof.
  unfold plain_name. rewrite negb_true_iff. intros Hn.
  induction a as [|c a IH]; cbn [app Path.basename].
  - rewrite Hn, N.eqb_refl. reflexivity.
  - replace (existsb (N.eqb Path.sep) (a ++ Path.sep :: name)) with true.
    + exact IH.
    + symmetry. rewrite existsb_app. cbn [existsb]. rewrite N.eqb_refl.
      apply orb_true_iff. right. reflexivity.
Qed.

(** The base name of a joined path is the file name. *)
Lemma basename_join (root name : pystr) :
  plain_name name = true -> Path.basename (Path.join root name) = name.
Proof.
  intros Hn. unfold Path.join.
  assert (Hs : PyStr.startswith [Path.sep] name = false).
  { unfold plain_name in Hn. destruct name as [|c name]; [reflexivity|].
    cbn [existsb] in Hn. rewrite negb_true_iff, orb_false_iff in Hn.
    destruct Hn as [Hc _]. cbn [PyStr.startswith]. rewrite Hc. reflexivity. }
  rewrite Hs. destruct (PyStr.truthy root) eqn:Hr; cbn [negb orb].
  - destruct (PyStr.endswith [Path.sep] root) eqn:He.
    + unfold PyStr.endswith in He. apply startswith_spec in He.
      destruct He as [post He]. cbn [rev app] in He.
      apply (f_equal (@rev N)) in He. rewrite rev_involutive in He.
      cbn [rev] in He. rewrite He, <- app_assoc. cbn [app].
      apply basename_after_sep, Hn.
    + apply basename_after_sep, Hn.
  - destruct root; [|discriminate Hr]. apply basename_plain, Hn.
Qed.

(** X8: [load_prices] only adds to the catalog: the new catalog holds
    the records it had and new ones, and each new record carries the
    name of a file of the walk that [load_prices] reads. *)
Theorem load_prices_provenance (data : list item) (walk : list dir_file) :
  forallb (fun f => plain_name (f_name f)) walk = true ->
  exists items,
    Permutation (data ++ items) (fst (load_prices data walk)) /\
    Forall (fun x =>
              exists f, In f walk /\ is_price_csv f = true /\ file x = f_name f)
           items.
Proof.
  intros Hplain. rewrite forallb_forall in Hplain. rewrite load_prices_fst.
  destruct (load_files_items
              (fun x => exists f, In f walk /\ is_price_csv f = true /\
                                  file x = f_name f)
              (valid_files walk))
    with (data := data) (out := @nil (pystr * exn)) as (items & Hitems & HF).
  - intros f Hf Hcsv headers p c w row x Hx.
    unfold valid_files in Hf. apply filter_In in Hf. destruct Hf as [Hin Hprice].
    exists f. split; [exact Hin|]. split.
    + unfold is_price_csv. rewrite Hprice, Hcsv. reflexivity.
    + rewrite (process_row_file _ _ _ _ _ _ _ Hx).
      apply basename_join, Hplain, Hin.
  - exists items. split; [|exact HF]. rewrite Hitems. apply sorted_perm.
Qed.

Lemma load_files_csv (files : list dir_file) :
  forall data out,
    load_files data out files =
    load_files data out
      (filter (fun f => PyStr.endswith (py ".csv")
                          (Path.join (f_root f) (f_name f))) files).
Proof.
  induction files as [|f files IH]; intros data out; [reflexivity|].
  cbn [filter]. destruct (PyStr.endswith _ _) eqn:E.
  - cbn [load_files]. destruct (load_file data f) as [data1 [e|]]; apply IH.
  - cbn [load_files]. unfold load_file. rewrite E. apply IH.
Qed.

Lemma valid_files_price_csv (walk : list dir_file) :
  valid_files (filter is_price_csv walk) =
  filter (fun f => PyStr.endswith (py ".csv")
                     (Path.join (f_root f) (f_name f))) (valid_files walk).
Proof.
  unfold valid_files, is_price_csv.
  induction walk as [|f walk IH]; [reflexivity|].
  cbn [filter].
  destruct (PyStr.contains _ _) eqn:E1; cbn [andb filter].
  - destruct (PyStr.endswith _ _) eqn:E2; cbn [filter]; rewrite ?E1, IH;
      reflexivity.
  - exact IH.
Qed.

(** X9: a file whose name does not hold [price] (in any case), or
    whose path does not end with [.csv] as written, is passed over in
    silence: the catalog and the reported errors are those of the walk
    without it. *)
Theorem load_prices_ignores_other_files (data : list item)
    (walk : list dir_file) :
  load_prices data walk = load_prices data (filter is_price_csv walk).
Proof.
  unfold load_prices.
  rewrite (load_files_csv (valid_files walk)).
  rewrite (load_files_csv (valid_files (filter is_price_csv walk))).
  rewrite valid_files_price_csv.
  assert (Hidem : forall (p : dir_file -> bool) l,
             filter p (filter p l) = filter p l).
  { intros p l. induction l as [|a l IHl]; [reflexivity|].
    cbn [filter]. destruct (p a) eqn:E; cbn [filter]; rewrite ?E, IHl;
      reflexivity. }
  rewrite Hidem. reflexivity.
Qed.

(** X10: the catalog that [load_prices] leaves is in order already, so
    the sorts of [export_to_html] and [find_text] change nothing: the
    table lists the catalog as it is stored, and a search is a plain
    filter of it. *)
Theorem load_prices_sorted_fixed (data : list item) (walk : list dir_file) :
  keys_ordered sort_key (fst (load_prices data walk)) ->
  sorted_view (fst (load_prices data walk)) = fst (load_prices data walk) /\
  export_rows (fst (load_prices data walk)) =
  map table_row (enumerate 1 (fst (load_prices data walk))) /\
  (forallb has_product (fst (load_prices data walk)) = true ->
   forall query,
     find_text (fst (load_prices data walk)) query =
     Ok (filter (find_keeps query) (fst (load_prices data walk)))).
Proof.
  intros Hn.
  assert (Hfix : sorted sort_key (fst (load_prices data walk))
                 = fst (load_prices data walk)).
  { apply sorted_fixed. rewrite load_prices_fst in Hn |- *.
    apply sorted_strongly.
    eapply keys_ordered_perm; [apply Permutation_sym, sorted_perm|exact Hn]. }
  split; [exact Hfix|]. split.
  - unfold export_rows. rewrite Hfix. reflexivity.
  - intros Hp query. unfold find_text.
    rewrite (find_results_strings query _ Hp). cbn [bind].
    rewrite sorted_filter by exact Hn. rewrite Hfix. reflexivity.
Qed.

(** ** What [find_text] returns *)

Lemma find_cond_ok (query : pystr) (x : item) (keep : bool) :
  find_cond query x = Ok keep -> keep = find_keeps query x.
Proof.
  unfold find_cond, find_keeps.
  destruct (PyStr.contains (str_lower query) _); [|intros [= <-]; reflexivity].
  destruct (product x) as [p|]; [|discriminate].
  intros [= <-]. reflexivity.
Qed.

Lemma find_results_ok (query : pystr) (data : list item) :
  forall results,
    find_results query data = Ok results ->
    results = filter (find_keeps query) data.
Proof.
  induction data as [|x data IH]; intros results H.
  - injection H as <-. reflexivity.
  - cbn [find_results] in H.
    destruct (find_cond query x) as [keep|] eqn:E; [|discriminate].
    cbn [bind] in H.
    destruct (find_results query data) as [r|]; [|discriminate].
    cbn [bind] in H. injection H as <-.
    cbn [filter]. rewrite <- (find_cond_ok _ _ _ E), <- (IH r eq_refl).
    reflexivity.
Qed.

Lemma find_results_attribute (query : pystr) (data : list item) (e : exn) :
  find_results query data = Raise e -> e = AttributeError.
Proof.
  induction data as [|x data IH]; intros H; [discriminate H|].
  cbn [find_results] in H.
  destruct (find_cond query x) as [keep|e'] eqn:E.
  - cbn [bind] in H.
    destruct (find_results query data) as [r|e'']; [discriminate|].
    cbn [bind] in H. injection H as <-. apply IH. reflexivity.
  - cbn [bind] in H. injection H as <-. apply (find_cond_raise query x), E.
Qed.

(** X11: over any catalog, [find_text] either returns the stable sort
    of exactly the records of the catalog that it keeps - no other
    record, none twice - or raises [AttributeError], which it does
    only when some product is [None] and the query occurs in the text
    [None] lower-cased. *)
Theorem find_text_outcome (data : list item) (query : pystr) :
  match find_text data query with
  | Ok results =>
    results = sorted sort_key (filter (find_keeps query) data) /\
    Permutation (filter (find_keeps query) data) results /\
    forall x, In x results <-> In x data /\ find_keeps query x = true
  | Raise e =>
    e = AttributeError /\
    existsb (fun x => negb (has_product x)) data = true /\
    PyStr.contains (str_lower query) (str_lower (py "None")) = true
  end.
Proof.
  unfold find_text.
  destruct (find_results query data) as [r|e] eqn:E; cbn [bind].
  - apply find_results_ok in E. subst r.
    split; [reflexivity|]. split; [apply sorted_perm|].
    intros x. rewrite <- filter_In. split; intros H.
    + eapply Permutation_in; [apply Permutation_sym, sorted_perm|exact H].
    + eapply Permutation_in; [apply sorted_perm|exact H].
  - split; [eapply find_results_attribute, E|].
    destruct (proj1 (find_results_raise query data) (ex_intro _ e E))
      as [Hc Hd].
    split; assumption.
Qed.

(** X12: a shorter query finds more: when the lower-cased [query']
    occurs in the lower-cased [query], every record returned for
    [query] is returned for [query']. *)
Theorem find_text_narrowing (data : list item) (query query' : pystr)
    (results results' : list item) :
  PyStr.contains (str_lower query') (str_lower query) = true ->
  find_text data query = Ok results ->
  find_text data query' = Ok results' ->
  incl results results'.
Proof.
  unfold find_text. intros Hc H H'.
  destruct (find_results query data) as [r|] eqn:E; [|discriminate].
  destruct (find_results query' data) as [r'|] eqn:E'; [|discriminate].
  cbn [bind] in H, H'. injection H as <-. injection H' as <-.
  apply find_results_ok in E, E'. subst r r'.
  intros x Hx.
  eapply Permutation_in; [apply sorted_perm|].
  eapply Permutation_in in Hx; [|apply Permutation_sym, sorted_perm].
  apply filter_In in Hx. destruct Hx as [Hin Hk]. apply filter_In.
  split; [exact Hin|].
  unfold find_keeps in *. apply andb_prop in Hk. destruct Hk as [Hq Hex].
  rewrite Hex, (contains_trans _ _ _ Hc Hq). reflexivity.
Qed.

(** ** The document *)

Lemma fold_left_append {X : Type} (f : X -> pystr) (l : list X) :
  forall init,
    fold_left (fun result x => result ++ f x) l init = init ++ List.concat (map f l).
Proof.
  induction l as [|x l IH]; intros init; cbn [fold_left map List.concat].
  - rewrite app_nil_r. reflexivity.
  - rewrite IH, <- app_assoc. reflexivity.
Qed.

Lemma contains_app_left (sub a s : pystr) :
  PyStr.contains sub s = true -> PyStr.contains sub (a ++ s) = true.
Proof.
  rewrite !contains_spec. intros (pre & post & ->).
  exists (a ++ pre), post. rewrite <- app_assoc. reflexivity.
Qed.

Lemma contains_app_right (sub s b : pystr) :
  PyStr.contains sub s = true -> PyStr.contains sub (s ++ b) = true.
Proof.
  rewrite !contains_spec. intros (pre & post & ->).
  exists pre, (post ++ b). rewrite <- !app_assoc. reflexivity.
Qed.

Lemma contains_self_app (sub b : pystr) :
  PyStr.contains sub (sub ++ b) = true.
Proof. apply (contains_middle sub [] b). Qed.

Lemma contains_concat (sub s : pystr) (l : list pystr) :
  In s l -> PyStr.contains sub s = true -> PyStr.contains sub (List.concat l) = true.
Proof.
  induction l as [|t l IH]; intros Hin Hc; [contradiction|].
  cbn [List.concat]. destruct Hin as [->|Hin].
  - apply contains_app_right, Hc.
  - apply contains_app_left, IH; assumption.
Qed.

Lemma enumerate_in {X : Type} (start : nat) (x : X) (l : list X) :
  In x l -> exists i, In (i, x) (enumerate start l).
Proof.
  intros Hin. apply In_nth_error in Hin. destruct Hin as [n Hn].
  exists (start + n). eapply nth_error_In, enumerate_nth, Hn.
Qed.

(** X13: the document is the fixed head, the text of the rows of
    [export_rows] in order, and the fixed tail; and the product, the
    price and the file name of every record of the catalog stand in it
    as they are, without any escaping. *)
Theorem export_to_html_text (data : list item) :
  export_to_html data =
  html_head ++ List.concat (map html_of_row (export_rows data)) ++ html_tail /\
  Forall (fun x =>
            PyStr.contains (str_of_cell (product x)) (export_to_html data) = true /\
            PyStr.contains (str_of_cell (price x)) (export_to_html data) = true /\
            PyStr.contains (file x) (export_to_html data) = true)
         data.
Proof.
  assert (Hdoc : export_to_html data =
                 html_head ++
                 List.concat (map (fun ix => html_tr (fst ix) (snd ix))
                             (enumerate 1 (sorted sort_key data))) ++ html_tail).
  { unfold export_to_html. cbv zeta. rewrite fold_left_append, <- app_assoc.
    reflexivity. }
  split.
  - rewrite Hdoc. unfold export_rows. rewrite map_map.
    do 3 f_equal. apply map_ext. intros [i x]. reflexivity.
  - apply Forall_forall. intros x Hx.
    assert (Hs : In x (sorted sort_key data))
      by (eapply Permutation_in; [apply sorted_perm|exact Hx]).
    destruct (enumerate_in 1 x _ Hs) as [i Hi].
    assert (Hrow : forall sub,
               PyStr.contains sub (html_tr i x) = true ->
               PyStr.contains sub (export_to_html data) = true).
    { intros sub Hsub. rewrite Hdoc.
      apply contains_app_left, contains_app_right.
      eapply contains_concat; [|exact Hsub].
      apply (in_map (fun ix => html_tr (fst ix) (snd ix)) _ (i, x) Hi). }
    unfold html_tr in Hrow. repeat split; apply Hrow.
    + do 3 apply contains_app_left. apply contains_self_app.
    + do 5 apply contains_app_left. apply contains_self_app.
    + do 9 apply contains_app_left. apply contains_self_app.
Qed.

(** ** The listing and the loop *)

Lemma listing_line_listable (idx : nat) (x : item) :
  if listable x then exists line, listing_line idx x = Ok line
  else listing_line idx x = Raise TypeError.
Proof.
  unfold listable, listing_line, format_str, format_float.
  destruct (product x), (price x), (weight x); cbn [bind];
    try reflexivity.
  eexists. reflexivity.
Qed.

(** X14: the listing of the results prints one line for each record
    as long as the records have a product, a price and a weight; at
    the first record without one of them, [None] does not take the
    format and [TypeError] ends the listing. *)
Theorem print_results_listable (results : list item) :
  forall start out,
    if forallb listable results then
      exists lines,
        print_results start results out = (out ++ lines, None) /\
        List.length lines = List.length results
    else
      exists lines x,
        print_results start results out = (out ++ lines, Some TypeError) /\
        nth_error results (List.length lines) = Some x /\
        listable x = false /\
        forallb listable (firstn (List.length lines) results) = true.
Proof.
  induction results as [|x results IH]; intros start out.
  - exists []. cbn. rewrite app_nil_r. split; reflexivity.
  - cbn [forallb print_results].
    pose proof (listing_line_listable start x) as Hx.
    destruct (listable x) eqn:El; cbn [andb].
    + destruct Hx as [line Hline]. rewrite Hline.
      specialize (IH (S start) (out ++ [line])).
      destruct (forallb listable results).
      * destruct IH as (lines & -> & Hlen). exists (line :: lines).
        rewrite <- app_assoc. split; [reflexivity|]. cbn. rewrite Hlen.
        reflexivity.
      * destruct IH as (lines & y & -> & Hy & Hly & Hpre).
        exists (line :: lines), y. rewrite <- app_assoc.
        repeat split; try assumption.
        cbn [List.length firstn forallb]. rewrite El, Hpre. reflexivity.
    + rewrite Hx. exists [], x. rewrite app_nil_r. repeat split; assumption.
Qed.


(** X15: the loop reads nothing after the first line that is [exit]
    once stripped and lower-cased: what follows it has no effect. *)
Theorem query_loop_stops_at_exit (data : list item) (line : pystr)
    (queries rest : list pystr) :
  is_exit line = true ->
  forall out,
    query_loop data (queries ++ line :: rest) out =
    query_loop data (queries ++ [line]) out.
Proof.
  intros Hexit. induction queries as [|q queries IH]; intros out.
  - cbn [app query_loop]. unfold is_exit in Hexit. rewrite Hexit. reflexivity.
  - cbn [app query_loop].
    destruct (PyStr.eqb _ _); [reflexivity|].
    destruct (find_text data (str_strip q)) as [[|x results]|e];
      [apply IH| |reflexivity].
    destruct (print_results 1 (x :: results) (out ++ [listing_head]))
      as [out' [e|]]; [reflexivity|apply IH].
Qed.

Lemma query_loop_exit (data : list item) (inputs : list pystr) :
  forall out,
    snd (query_loop data inputs out) = Exit ->
    existsb is_exit inputs = true.
Proof.
  induction inputs as [|q inputs IH]; intros out H; [discriminate H|].
  cbn [query_loop] in H. cbn [existsb]. unfold is_exit at 1.
  destruct (PyStr.eqb _ _); [reflexivity|]. cbn [orb].
  destruct (find_text data (str_strip q)) as [[|x results]|e];
    [eapply IH, H| |discriminate H].
  destruct (print_results 1 (x :: results) (out ++ [listing_head]))
    as [out' [e|]]; [discriminate H|eapply IH, H].
Qed.

(** X16: [output.html] is written only when the loop was left by an
    [exit] line, and then it is the document of the whole catalog,
    whatever was searched; a run that ends otherwise writes no file. *)
Theorem main_exports_after_exit (walk_of : pystr -> list dir_file)
    (inputs : list pystr) :
  match run_html (main walk_of inputs) with
  | Some html =>
    run_stop (main walk_of inputs) = Exit /\
    existsb is_exit (tl inputs) = true /\
    html = export_to_html
             (fst (load_prices [] (walk_of (str_strip (hd [] inputs)))))
  | None => run_stop (main walk_of inputs) <> Exit
  end.
Proof.
  unfold main. destruct inputs as [|line inputs]; [discriminate|].
  cbn [hd tl].
  destruct (load_prices [] (walk_of (str_strip line))) as [data errors].
  cbn [fst].
  destruct (query_loop data inputs []) as [out ending] eqn:E.
  destruct ending; cbn; try discriminate.
  repeat split. apply (query_loop_exit data inputs []).
  rewrite E. reflexivity.
Qed.


End FurtherProperties.

(** ** The further properties on the sample price lists *)

Local Open Scope string_scope.

Ltac nodup_strings :=
  vm_compute;
  repeat (constructor;
          [ let H := fresh in
            intros H; cbn in H;
            repeat (destruct H as [H|H]; [discriminate H|]); exact H
          | ]);
  try constructor.

(** Two header rows that differ in case alone. *)
Lemma search_case_insensitive_witness :
  _search_product_price_weight (map PyStr.of_string ["ТОВАР"; "Цена"; "вес"]) =
  _search_product_price_weight (map PyStr.of_string ["товар"; "ЦЕНА"; "Вес"]).
Proof.
  apply (search_case_insensitive
           (map PyStr.of_string ["ТОВАР"; "Цена"; "вес"])
           (map PyStr.of_string ["товар"; "ЦЕНА"; "Вес"])).
  vm_compute. reflexivity.
Defined.

(** A row that stops before the weight column. *)
Lemma process_row_fields_witness :
  process_row (map PyStr.of_string ["Товар"; "Цена"; "Вес"]) 0 1 (Some 2)
              (py "prices/price1.csv")
              (dict_reader_row (map PyStr.of_string ["Товар"; "Цена"; "Вес"])
                               (map PyStr.of_string ["Чай"; "10"])) =
  Ok (record "price1.csv" "Чай" "10" None None).
Proof.
  rewrite (process_row_fields
             (map PyStr.of_string ["Товар"; "Цена"; "Вес"]) 0 1 (Some 2)
             (py "prices/price1.csv") (map PyStr.of_string ["Чай"; "10"])).
  - vm_compute. reflexivity.
  - vm_compute. reflexivity.
  - nodup_strings.
Defined.

(** The weight 2 is read, the price is missing: [float(None)]. *)
Lemma process_row_missing_price_witness :
  process_row (map PyStr.of_string ["Вес"; "Товар"; "Цена"]) 1 2 (Some 0)
              (py "prices/price1.csv")
              (dict_reader_row (map PyStr.of_string ["Вес"; "Товар"; "Цена"])
                               (map PyStr.of_string ["2"; "Чай"])) =
  Raise TypeError.
Proof.
  refine (process_row_missing_price
            (map PyStr.of_string ["Вес"; "Товар"; "Цена"]) 1 2 (Some 0)
            (py "prices/price1.csv") (map PyStr.of_string ["2"; "Чай"]) _ _ _).
  - vm_compute. reflexivity.
  - nodup_strings.
  - vm_compute. repeat constructor.
Defined.

(** From the empty catalog, the records of scenario 6. *)
Lemma load_prices_record_invariant_witness :
  Forall price_per_kg_justified (fst (load_prices [] [Samples.price1])).
Proof.
  apply (load_prices_record_invariant [] [Samples.price1]). constructor.
Defined.

Lemma load_prices_provenance_witness :
  exists items,
    Permutation ([] ++ items)%list (fst (load_prices [] [Samples.price1])) /\
    Forall (fun x =>
              exists f, In f [Samples.price1] /\ is_price_csv f = true /\
                        file x = f_name f)
           items.
Proof.
  apply (load_prices_provenance [] [Samples.price1]).
  vm_compute. reflexivity.
Defined.

Lemma load_prices_sorted_fixed_witness :
  sorted_view (fst (load_prices [] [Samples.zero_price]))
  = fst (load_prices [] [Samples.zero_price]).
Proof.
  refine (proj1 (load_prices_sorted_fixed [] [Samples.zero_price] _)).
  vm_compute. repeat constructor.
Defined.

(** The query [гру] finds what [груша] finds. *)
Lemma find_text_narrowing_witness :
  incl [record "price1.csv" "Груша" "150" None None]
       [record "price1.csv" "Груша" "150" None None].
Proof.
  apply (find_text_narrowing (catalog [Samples.price1])
           (py "груша") (py "гру")).
  - vm_compute. reflexivity.
  - vm_compute. reflexivity.
  - vm_compute. reflexivity.
Defined.

(** A query, the line [ EXIT ], and a query that is never read. *)
Lemma query_loop_stops_at_exit_witness :
  query_loop (catalog [Samples.price1])
             ([py "яблоко"] ++ py " EXIT " :: [py "груша"])%list [] =
  query_loop (catalog [Samples.price1])
             ([py "яблоко"] ++ [py " EXIT "])%list [].
Proof.
  apply (query_loop_stops_at_exit (catalog [Samples.price1]) (py " EXIT ")
           [py "яблоко"] [py "груша"]).
  vm_compute. reflexivity.
Defined.


(** The whole run of the script on scenario 6 with a query that can be
    listed: the listing, the two closing lines, and the document. *)
Example script_run :
  let r := main (fun _ => [Samples.price1]) [py " prices "; py "ЯБЛОКО"; py "Exit"] in
  run_errors r = [] /\
  run_stop r = Exit /\
  run_lines r =
  [py "№    Наименование                            Цена      Вес       Файл           Цена за кг.";
   py "1    Яблоко                                  100       2.0       price1.csv     50.0      ";
   py "Работа завершена.";
   py "Данные успешно экспортированы в output.html";
   py "Данные сохранены в HTML файл."] /\
  run_html r = Some (export_to_html (catalog [Samples.price1])).
Proof. vm_compute. repeat split. Qed.
